(** * AutoPlantWateringSystem: the sequencer of main.c

    A shallow embedding of the MSP430G2553 firmware in [src/main.c]: the
    moisture sampler, the travel calibration ([preWaterPlant]), the watering
    actuator ([waterPlant]), the station sequencer ([plantState]) and the
    outer loop of [main].

    The firmware never terminates, so every loop that the source writes as
    [while] takes a budget of iterations; a run that spends its budget inside
    a loop reports the loop it was in and the machine it had reached. *)

From Stdlib Require Import ZArith List Bool Lia.
Import ListNotations.
Local Open Scope Z_scope.

(** ** Constants *)

Definition MOISTURE_MIN : Z := 200.
Definition MOISTURE_MAX : Z := 600.
Definition MAX_TRAVEL : Z := 5.
Definition SOAK_TIME : Z := 3.

(** Bit masks and ADC10 control words, with the values of the TI header
    [msp430g2553.h] that main.c includes. *)
Definition BIT0 : Z := 0x01.
Definition BIT1 : Z := 0x02.
Definition BIT2 : Z := 0x04.
Definition BIT3 : Z := 0x08.
Definition BIT4 : Z := 0x10.
Definition BIT5 : Z := 0x20.
Definition INCH_1 : Z := 0x1000.
Definition INCH_3 : Z := 0x3000.
Definition INCH_5 : Z := 0x5000.
Definition ADC10SC : Z := 0x001.
Definition ENC : Z := 0x002.
Definition ADC10IE : Z := 0x008.
Definition ADC10ON : Z := 0x010.
Definition ADC10SHT_1 : Z := 0x800.
Definition ADC10DIV_7 : Z := 0xE0.

(** ** Machine integers

    [int] has 16 bits on the MSP430; the port registers have 8 bits and the
    ADC10 control registers 16. *)

Definition int16 (z : Z) : Z := (z + 32768) mod 65536 - 32768.
Definition uint8 (z : Z) : Z := Z.land z 0xFF.
Definition uint16 (z : Z) : Z := Z.land z 0xFFFF.

(** ** Data model *)

Record plantProperty : Type := mkPlant {
  enableADC : Z;
  selectADC : Z;
  sampleADC : Z;
  activateSolenoid : Z;
  travelTime : Z
}.

(** The three pointers that [main] takes to its local structs. *)
Inductive ptr : Type := ptr_plant1 | ptr_plant2 | ptr_plant3.

(** What a run leaves behind, oldest first: every write to an output port
    and to a [travelTime] field, every blocking wait, every conversion
    result, and the entry of each function of the sequencer. *)
Inductive event : Type :=
| EvPlantState (p : ptr)
| EvPreWaterPlant (p : ptr)
| EvWaterPlant (p : ptr)
| EvHdelay (hours : Z)
| EvP1OUT (v : Z)
| EvP2OUT (v : Z)
| EvTravelTime (p : ptr) (v : Z)
| EvDelay (seconds : Z)
| EvMsdelay (mseconds : Z)
| EvADC10MEM (v : Z).

(** The registers the sequencer writes, the structs of [main], the number of
    conversions the ADC has delivered, the time spent in [delay] and
    [msdelay], and the trace.  The clock system, the watchdog, the port
    direction registers and the timer registers are behind [tick]. *)
#[projections(primitive)]
Record world : Type := mkWorld {
  P1OUT : Z;
  P2OUT : Z;
  ADC10CTL0 : Z;
  ADC10CTL1 : Z;
  ADC10AE0 : Z;
  plant1 : plantProperty;
  plant2 : plantProperty;
  plant3 : plantProperty;
  conversions : nat;
  seconds : Z;
  mseconds : Z;
  trace : list event
}.

Definition log (e : event) (w : world) : world :=
  mkWorld (P1OUT w) (P2OUT w) (ADC10CTL0 w) (ADC10CTL1 w) (ADC10AE0 w)
          (plant1 w) (plant2 w) (plant3 w) (conversions w) (seconds w)
          (mseconds w) (trace w ++ [e]).

Definition set_P1OUT (v : Z) (w : world) : world :=
  log (EvP1OUT (uint8 v))
      (mkWorld (uint8 v) (P2OUT w) (ADC10CTL0 w) (ADC10CTL1 w) (ADC10AE0 w)
               (plant1 w) (plant2 w) (plant3 w) (conversions w) (seconds w)
               (mseconds w) (trace w)).

Definition set_P2OUT (v : Z) (w : world) : world :=
  log (EvP2OUT (uint8 v))
      (mkWorld (P1OUT w) (uint8 v) (ADC10CTL0 w) (ADC10CTL1 w) (ADC10AE0 w)
               (plant1 w) (plant2 w) (plant3 w) (conversions w) (seconds w)
               (mseconds w) (trace w)).

Definition set_ADC10CTL0 (v : Z) (w : world) : world :=
  mkWorld (P1OUT w) (P2OUT w) (uint16 v) (ADC10CTL1 w) (ADC10AE0 w)
          (plant1 w) (plant2 w) (plant3 w) (conversions w) (seconds w)
          (mseconds w) (trace w).

Definition set_ADC10CTL1 (v : Z) (w : world) : world :=
  mkWorld (P1OUT w) (P2OUT w) (ADC10CTL0 w) (uint16 v) (ADC10AE0 w)
          (plant1 w) (plant2 w) (plant3 w) (conversions w) (seconds w)
          (mseconds w) (trace w).

Definition set_ADC10AE0 (v : Z) (w : world) : world :=
  mkWorld (P1OUT w) (P2OUT w) (ADC10CTL0 w) (ADC10CTL1 w) (uint8 v)
          (plant1 w) (plant2 w) (plant3 w) (conversions w) (seconds w)
          (mseconds w) (trace w).

Definition set_plants (q1 q2 q3 : plantProperty) (w : world) : world :=
  mkWorld (P1OUT w) (P2OUT w) (ADC10CTL0 w) (ADC10CTL1 w) (ADC10AE0 w)
          q1 q2 q3 (conversions w) (seconds w) (mseconds w) (trace w).

(** [*ptr_plant] *)
Definition deref (p : ptr) (w : world) : plantProperty :=
  match p with
  | ptr_plant1 => plant1 w
  | ptr_plant2 => plant2 w
  | ptr_plant3 => plant3 w
  end.

Definition with_travelTime (t : Z) (q : plantProperty) : plantProperty :=
  mkPlant (enableADC q) (selectADC q) (sampleADC q) (activateSolenoid q) t.

(** [( *ptr_plant).travelTime = t] *)
Definition set_travelTime (p : ptr) (t : Z) (w : world) : world :=
  log (EvTravelTime p t)
      match p with
      | ptr_plant1 =>
          set_plants (with_travelTime t (plant1 w)) (plant2 w) (plant3 w) w
      | ptr_plant2 =>
          set_plants (plant1 w) (with_travelTime t (plant2 w)) (plant3 w) w
      | ptr_plant3 =>
          set_plants (plant1 w) (plant2 w) (with_travelTime t (plant3 w)) w
      end.

(** One period of Timer A slept through in LPM1: one second in [delay]. *)
Definition tick (w : world) : world :=
  mkWorld (P1OUT w) (P2OUT w) (ADC10CTL0 w) (ADC10CTL1 w) (ADC10AE0 w)
          (plant1 w) (plant2 w) (plant3 w) (conversions w) (seconds w + 1)
          (mseconds w) (trace w).

(** One period of Timer A with [CCR0 = 16-1]: one millisecond in [msdelay]. *)
Definition mstick (w : world) : world :=
  mkWorld (P1OUT w) (P2OUT w) (ADC10CTL0 w) (ADC10CTL1 w) (ADC10AE0 w)
          (plant1 w) (plant2 w) (plant3 w) (conversions w) (seconds w)
          (mseconds w + 1) (trace w).

(** ** Outcomes of a budgeted run *)

(** The loops of the source that need not end. *)
Inductive loop : Type := InCalibration | InAlarm | InMain.

Inductive outcome (A : Type) : Type :=
| Done (a : A) (w : world)
| Spin (l : loop) (w : world).
Arguments Done {A} a w.
Arguments Spin {A} l w.

Definition M (A : Type) : Type := world -> outcome A.

Definition ret {A} (a : A) : M A := fun w => Done a w.

Definition bind {A B} (m : M A) (k : A -> M B) : M B :=
  fun w => match m w with
           | Done a w' => k a w'
           | Spin l w' => Spin l w'
           end.

(** A statement that always falls through. *)
Definition exec (f : world -> world) : M unit := fun w => Done tt (f w).

(** A call that always returns, with its value. *)
Definition call {A} (f : world -> A * world) : M A :=
  fun w => let (a, w') := f w in Done a w'.

Notation "x <- m ;; k" := (bind m (fun x => k))
  (at level 61, m at next level, right associativity).
Notation "m ;;; k" := (bind m (fun _ => k))
  (at level 61, right associativity).

Definition world_of {A} (o : outcome A) : world :=
  match o with Done _ w => w | Spin _ w => w end.

(** ** The program *)

Section Firmware.

(** The soil: what the [n]-th conversion of the ADC delivers in ADC10MEM
    (0..1023 on the hardware). *)
Variable ADC10MEM : nat -> Z.

(** [for(i = mseconds; i>0; i--)] *)
Definition msdelay (ms : Z) (w : world) : world :=
  Nat.iter (Z.to_nat ms) mstick (log (EvMsdelay ms) w).

(** [for(i = seconds; i>0; i--)] *)
Definition delay (s : Z) (w : world) : world :=
  Nat.iter (Z.to_nat s) tick (log (EvDelay s) w).

(** [for(i = hours; i>0; i--) delay(3600);] *)
Definition hdelay (hours : Z) (w : world) : world :=
  Nat.iter (Z.to_nat hours) (delay 3600) (log (EvHdelay hours) w).

(** The writes of [initialize] to the registers of the model; the clock
    system and the port directions are set up around them. *)
Definition initialize (w : world) : world :=
  let w := set_P1OUT (Z.land (P1OUT w) (Z.lnot (BIT0 + BIT2 + BIT4))) w in
  let w := set_P2OUT (Z.land (P2OUT w) (Z.lnot (BIT0 + BIT1 + BIT2 + BIT3))) w in
  let w := set_ADC10CTL1 (Z.lor (ADC10CTL1 w) ADC10DIV_7) w in
  set_ADC10CTL0 (ADC10SHT_1 + ADC10ON + ADC10IE) w.

(** Powers the station's sensor, selects and enables its channel, waits
    500 ms. *)
Definition initializeADC (p : ptr) (w : world) : world :=
  let w := set_P1OUT (Z.lor (P1OUT w) (enableADC (deref p w))) w in
  let w := set_ADC10CTL1 (Z.lor (ADC10CTL1 w) (selectADC (deref p w))) w in
  let w := set_ADC10AE0 (Z.lor (ADC10AE0 w) (sampleADC (deref p w))) w in
  msdelay 500 w.

(** Stops the ADC, deselects and disables the channel, cuts the sensor's
    power. *)
Definition deinitializeADC (p : ptr) (w : world) : world :=
  let w := set_ADC10CTL0 (Z.land (ADC10CTL0 w) (Z.lnot ENC)) w in
  let w := set_ADC10CTL1 (Z.land (ADC10CTL1 w) (Z.lnot (selectADC (deref p w)))) w in
  let w := set_ADC10AE0 (Z.land (ADC10AE0 w) (Z.lnot (sampleADC (deref p w)))) w in
  set_P1OUT (Z.land (P1OUT w) (Z.lnot (enableADC (deref p w)))) w.

(** Starts a conversion, sleeps until the ADC interrupt, reads ADC10MEM. *)
Definition checkMoisture (w : world) : Z * world :=
  let w := set_ADC10CTL0 (Z.lor (ADC10CTL0 w) (ENC + ADC10SC)) w in
  let moisture := ADC10MEM (conversions w) in
  (moisture,
   log (EvADC10MEM moisture)
       (mkWorld (P1OUT w) (P2OUT w) (ADC10CTL0 w) (ADC10CTL1 w) (ADC10AE0 w)
                (plant1 w) (plant2 w) (plant3 w) (S (conversions w))
                (seconds w) (mseconds w) (trace w))).

(** The body of the calibration loop (main.c lines 159-162).  [counter++]
    is on an [int]: it wraps in 16 bits, as the addition of the MSP430
    does. *)
Definition calibration_body (counter : Z) (w : world) : (Z * Z) * world :=
  let w := set_P2OUT (Z.lor (P2OUT w) BIT3) w in
  let w := delay 1 w in
  let (moisture, w) := checkMoisture w in
  ((moisture, int16 (counter + 1)), w).

(** [while(moisture<MOISTURE_MAX || counter<MAX_TRAVEL)], with [fuel]
    rounds at most; it returns the locals [moisture] and [counter]. *)
Fixpoint calibration (fuel : nat) (moisture counter : Z) (w : world)
  : outcome (Z * Z) :=
  if (moisture <? MOISTURE_MAX) || (counter <? MAX_TRAVEL) then
    match fuel with
    | O => Spin InCalibration w
    | S fuel' =>
        let '((moisture', counter'), w') := calibration_body counter w in
        calibration fuel' moisture' counter' w'
    end
  else Done (moisture, counter) w.

(** One round of the alarm's [while(1)] (main.c lines 168-171). *)
Definition alarm_body (w : world) : world :=
  let w := set_P1OUT (Z.lor (P1OUT w) (BIT0 + BIT2 + BIT4)) w in
  let w := delay 1 w in
  let w := set_P1OUT (Z.land (P1OUT w) (Z.lnot (BIT0 + BIT2 + BIT4))) w in
  delay 1 w.

(** The [while(1)] of the alarm after [fuel] rounds; it has no exit. *)
Fixpoint alarm (fuel : nat) (w : world) : world :=
  match fuel with
  | O => w
  | S fuel' => alarm fuel' (alarm_body w)
  end.

(** [preWaterPlant(ptr_plant)]; [fuel] bounds the rounds of its loop and
    those of the alarm. *)
Definition preWaterPlant (fuel : nat) (p : ptr) : M unit :=
  fun w =>
    let w := log (EvPreWaterPlant p) w in
    let (moisture, w) := checkMoisture w in
    let counter := 0 in
    let w := set_P2OUT (Z.lor (P2OUT w) (activateSolenoid (deref p w))) w in
    let w := delay 1 w in
    match calibration fuel moisture counter w with
    | Spin l w => Spin l w
    | Done (_, counter) w =>
        if counter >=? MAX_TRAVEL then Spin InAlarm (alarm fuel w)
        else
          let w := set_P2OUT (Z.land (P2OUT w) (Z.lnot BIT3)) w in
          let w := delay 2 w in
          let w := set_P2OUT (Z.land (P2OUT w)
                                     (Z.lnot (activateSolenoid (deref p w)))) w in
          Done tt (set_travelTime p counter w)
    end.

(** [waterPlant(ptr_plant)]; [waterTime] is an [int]. *)
Definition waterPlant (p : ptr) (w : world) : world :=
  let w := log (EvWaterPlant p) w in
  let waterTime := int16 (travelTime (deref p w) + SOAK_TIME) in
  let w := set_P2OUT (Z.lor (P2OUT w) (activateSolenoid (deref p w))) w in
  let w := delay 1 w in
  let w := set_P2OUT (Z.lor (P2OUT w) BIT3) w in
  let w := delay waterTime w in
  let w := set_P2OUT (Z.land (P2OUT w) (Z.lnot BIT3)) w in
  let w := delay 2 w in
  set_P2OUT (Z.land (P2OUT w) (Z.lnot (activateSolenoid (deref p w)))) w.

(** [plantState(ptr_plant)] *)
Definition plantState (fuel : nat) (p : ptr) : M unit :=
  exec (log (EvPlantState p)) ;;;
  exec (initializeADC p) ;;;
  moisture <- call checkMoisture ;;
  (if moisture <? MOISTURE_MIN then
     preWaterPlant fuel p ;;;
     exec (delay 60) ;;;
     exec (waterPlant p)
   else ret tt) ;;;
  exec (waterPlant p) ;;;
  exec (deinitializeADC p).

(** The body of the [while(1)] of [main]. *)
Definition cycle (fuel : nat) : M unit :=
  plantState fuel ptr_plant1 ;;;
  plantState fuel ptr_plant2 ;;;
  plantState fuel ptr_plant3 ;;;
  exec (hdelay 48).

(** [while(1)] of [main]: [rounds] bounds its iterations, [fuel] those of
    the loops inside.  It has no exit, so there is no [Done]. *)
Fixpoint main_loop (fuel rounds : nat) (w : world) : loop * world :=
  match rounds with
  | O => (InMain, w)
  | S rounds' =>
      match cycle fuel w with
      | Done _ w' => main_loop fuel rounds' w'
      | Spin l w' => (l, w')
      end
  end.

(** The structs as [main] initialises them. *)
Definition plant1_init : plantProperty := mkPlant BIT0 INCH_1 BIT1 BIT0 0.
Definition plant2_init : plantProperty := mkPlant BIT2 INCH_3 BIT3 BIT1 0.
Definition plant3_init : plantProperty := mkPlant BIT4 INCH_5 BIT5 BIT2 0.

(** The machine out of reset: the output registers keep whatever they held
    ([p1], [p2]), the ADC10 registers are cleared, nothing has happened. *)
Definition power_on (p1 p2 : Z) : world :=
  mkWorld (uint8 p1) (uint8 p2) 0 0 0
          (mkPlant 0 0 0 0 0) (mkPlant 0 0 0 0 0) (mkPlant 0 0 0 0 0)
          O 0 0 [].

(** [main] up to its loop. *)
Definition startup (p1 p2 : Z) : world :=
  set_plants plant1_init plant2_init plant3_init (initialize (power_on p1 p2)).

(** [main] with a budget of [fuel] rounds for each of its loops: the loop it
    is found in when the budget is spent, and the machine then. *)
Definition main (fuel : nat) (p1 p2 : Z) : loop * world :=
  main_loop fuel fuel (startup p1 p2).

End Firmware.

(** ** Observations on runs *)

(** The events that the calibration loop can leave when it drives P2OUT to
    [x]. *)
Definition cal_event (x : Z) (e : event) : Prop :=
  e = EvP2OUT x \/ e = EvDelay 1 \/ exists m, e = EvADC10MEM m.

(** The events of the alarm: the indicator port and one-second waits. *)
Definition alarm_event (e : event) : Prop :=
  e = EvDelay 1 \/ exists v, e = EvP1OUT v.

(** [w'] continues the run of [w] with events that all satisfy [Q]. *)
Definition extends (Q : event -> Prop) (w w' : world) : Prop :=
  exists tr, trace w' = trace w ++ tr /\ Forall Q tr.

(** Nothing but time and the trace separates the two machines' structs. *)
Definition same_plants (w w' : world) : Prop :=
  plant1 w' = plant1 w /\ plant2 w' = plant2 w /\ plant3 w' = plant3 w.

(** The indicator outputs P1.0, P1.2 and P1.4. *)
Definition indicators : Z := BIT0 + BIT2 + BIT4.

(** One round of the alarm seen from outside, when it starts with the
    indicator port at [p1]. *)
Definition alarm_round (p1 : Z) : list event :=
  [EvP1OUT (uint8 (Z.lor p1 indicators)); EvDelay 1;
   EvP1OUT (uint8 (Z.land (uint8 (Z.lor p1 indicators)) (Z.lnot indicators)));
   EvDelay 1].

(** The events of [preWaterPlant] for station [p], when it drives P2OUT to
    [x1] (station valve) and then to [x2] (with the shared line). *)
Definition pre_event (p : ptr) (x1 x2 : Z) (e : event) : Prop :=
  e = EvPreWaterPlant p \/ e = EvP2OUT x1 \/ e = EvP2OUT x2 \/
  e = EvDelay 1 \/ (exists m, e = EvADC10MEM m) \/ (exists v, e = EvP1OUT v).

(** The four valve outputs P2.0-P2.3 of a value of P2OUT. *)
Definition valves (v : Z) : Z := Z.land v 0x0F.

(** What [waterPlant] leaves for station [p] with struct [q], when it finds
    P2OUT at [p2]. *)
Definition dose_events (p : ptr) (p2 : Z) (q : plantProperty) : list event :=
  let x1 := uint8 (Z.lor p2 (activateSolenoid q)) in
  let x2 := uint8 (Z.lor x1 BIT3) in
  let x3 := uint8 (Z.land x2 (Z.lnot BIT3)) in
  let x4 := uint8 (Z.land x3 (Z.lnot (activateSolenoid q))) in
  [EvWaterPlant p; EvP2OUT x1; EvDelay 1; EvP2OUT x2;
   EvDelay (int16 (travelTime q + SOAK_TIME));
   EvP2OUT x3; EvDelay 2; EvP2OUT x4].

(** P2OUT after those events. *)
Definition dose_end (p2 : Z) (q : plantProperty) : Z :=
  uint8 (Z.land (uint8 (Z.land (uint8 (Z.lor (uint8 (Z.lor p2 (activateSolenoid q))) BIT3))
                               (Z.lnot BIT3)))
                (Z.lnot (activateSolenoid q))).

(** What [plantState] leaves before it branches on the sample [m]. *)
Definition sense_events (p : ptr) (p1 : Z) (q : plantProperty) (m : Z)
  : list event :=
  [EvPlantState p; EvP1OUT (uint8 (Z.lor p1 (enableADC q)));
   EvMsdelay 500; EvADC10MEM m].

(** The seconds of [tr] that pass with the shared-line valve (P2.3) open,
    when [tr] starts with P2OUT at [p2]. *)
Fixpoint shared_open_seconds (p2 : Z) (tr : list event) : Z :=
  match tr with
  | [] => 0
  | EvP2OUT v :: tr' => shared_open_seconds v tr'
  | EvDelay s :: tr' =>
      (if Z.testbit p2 3 then Z.max 0 s else 0) + shared_open_seconds p2 tr'
  | _ :: tr' => shared_open_seconds p2 tr'
  end.

(** The solenoid outputs as [main] assigns them. *)
Definition wired (w : world) : Prop :=
  activateSolenoid (plant1 w) = BIT0 /\
  activateSolenoid (plant2 w) = BIT1 /\
  activateSolenoid (plant3 w) = BIT2.

Definition is_dose (e : event) : bool :=
  match e with EvWaterPlant _ => true | _ => false end.

Definition is_calibration (e : event) : bool :=
  match e with EvPreWaterPlant _ => true | _ => false end.

(** The sensor supply as [deinitializeADC] leaves it after [initializeADC]
    found P1OUT at [p1]. *)
Definition sense_off (p1 : Z) (q : plantProperty) : Z :=
  uint8 (Z.land (uint8 (Z.lor p1 (enableADC q))) (Z.lnot (enableADC q))).

(** The whole of a station's processing on the wet path. *)
Definition wet_events (p : ptr) (p1 p2 : Z) (q : plantProperty) (m : Z)
  : list event :=
  sense_events p p1 q m ++ dose_events p p2 q ++ [EvP1OUT (sense_off p1 q)].

(** ** The schedule as a monitor of the trace *)

(** The valve output of each station, as [main] wires it. *)
Definition solenoid (p : ptr) : Z :=
  match p with
  | ptr_plant1 => BIT0
  | ptr_plant2 => BIT1
  | ptr_plant3 => BIT2
  end.

Definition ptr_eqb (p q : ptr) : bool :=
  match p, q with
  | ptr_plant1, ptr_plant1 | ptr_plant2, ptr_plant2
  | ptr_plant3, ptr_plant3 => true
  | _, _ => false
  end.

(** Where the outer loop is: before its first station, inside the
    processing of a station, or [n] hours into the long sleep. *)
Inductive phase : Type :=
| Startup
| Station (p : ptr)
| Sleeping (n : nat).

(** Station 1 opens a round, at the start or after 48 hours of sleep;
    station 2 follows 1 and station 3 follows 2. *)
Definition next_station (ph : phase) (p : ptr) : bool :=
  match ph, p with
  | Startup, ptr_plant1 => true
  | Sleeping n, ptr_plant1 => (n =? 48)%nat
  | Station ptr_plant1, ptr_plant2 => true
  | Station ptr_plant2, ptr_plant3 => true
  | _, _ => false
  end.

(** One event against the schedule.  The state is the phase and the valve
    outputs as last written.  A station may start only in its turn and with
    every valve closed; while it is processed only its own valve and the
    shared line may be driven, and only it may be calibrated or dosed; the
    sleep follows station 3 with every valve closed and is 48 waits of 3600
    seconds, during which no valve opens. *)
Definition mstep (st : phase * Z) (e : event) : option (phase * Z) :=
  let (ph, open) := st in
  match e with
  | EvPlantState p =>
      if (open =? 0) && next_station ph p then Some (Station p, open)
      else None
  | EvHdelay h =>
      match ph with
      | Station ptr_plant3 =>
          if (open =? 0) && (h =? 48) then Some (Sleeping 0, open) else None
      | _ => None
      end
  | EvP2OUT v =>
      match ph with
      | Station p =>
          if Z.land (valves v) (Z.lnot (Z.lor (solenoid p) BIT3)) =? 0
          then Some (ph, valves v) else None
      | _ => if valves v =? 0 then Some (ph, 0) else None
      end
  | EvDelay s =>
      match ph with
      | Sleeping n =>
          if (s =? 3600) && (n <? 48)%nat then Some (Sleeping (S n), open)
          else None
      | _ => Some st
      end
  | EvPreWaterPlant p | EvWaterPlant p | EvTravelTime p _ =>
      match ph with
      | Station q => if ptr_eqb p q then Some st else None
      | _ => None
      end
  | EvP1OUT _ | EvMsdelay _ | EvADC10MEM _ => Some st
  end.

Fixpoint monitor (st : phase * Z) (tr : list event) : option (phase * Z) :=
  match tr with
  | [] => Some st
  | e :: tr' =>
      match mstep st e with
      | Some st' => monitor st' tr'
      | None => None
      end
  end.

(** How many of the outputs [bits] are high in [v]. *)
Definition open_count (bits : list Z) (v : Z) : nat :=
  length (filter (Z.testbit v) bits).

(** The valves open in a value of P2OUT: the three station valves and the
    shared line, or the station valves only. *)
Definition valves_open (v : Z) : nat := open_count [0; 1; 2; 3] v.
Definition station_valves_open (v : Z) : nat := open_count [0; 1; 2] v.

(** No write to a [travelTime] field. *)
Definition no_store (e : event) : Prop :=
  match e with EvTravelTime _ _ => False | _ => True end.

(** The structs hold what [main] put there. *)
Definition plants_init (w : world) : Prop :=
  plant1 w = plant1_init /\ plant2 w = plant2_init /\ plant3 w = plant3_init.

(** The doses of a trace that starts with P2OUT at [p2]: for each entry of
    [waterPlant], the station and the seconds for which the shared line is
    then held open.  [cur] is the dose in progress. *)
Fixpoint doses (p2 : Z) (cur : option (ptr * Z)) (tr : list event)
  : list (ptr * Z) :=
  match tr with
  | [] => match cur with Some d => [d] | None => [] end
  | EvWaterPlant p :: tr' =>
      match cur with Some d => [d] | None => [] end
      ++ doses p2 (Some (p, 0)) tr'
  | EvP2OUT v :: tr' => doses v cur tr'
  | EvDelay s :: tr' =>
      doses p2
            match cur with
            | Some (p, t) =>
                Some (p, t + if Z.testbit p2 3 then Z.max 0 s else 0)
            | None => None
            end
            tr'
  | _ :: tr' => doses p2 cur tr'
  end.

(** ** Soils *)

(** Scenario C of the specification: the sensor reads 400 throughout. *)
Definition soil_wet : nat -> Z := fun _ => 400.

(** Scenario A: 150 at the sequencer's sample, at the first sample of the
    calibration and after steps 1 and 2; the wet threshold from step 3 on. *)
Definition soil_scenario_A : nat -> Z :=
  fun n => if (n <? 4)%nat then 150 else 600.

(** Scenario B: the sensor never leaves 150. *)
Definition soil_dry : nat -> Z := fun _ => 150.

(** ** Further observations *)

(** The outputs P2.4-P2.7 of a value of P2OUT: no valve hangs on them. *)
Definition high (v : Z) : Z := Z.land v 0xF0.

(** A write to P2OUT that keeps P2.4-P2.7 at [hi] and has the valves closed,
    one station valve open, or one station valve and the shared line. *)
Definition p2_ok (hi : Z) (e : event) : Prop :=
  match e with
  | EvP2OUT v => high v = hi /\ In (valves v) [0; 1; 2; 4; 9; 10; 12]
  | _ => True
  end.

(** What the calibration loop and the alarm leave: port writes, waits of one
    second, samples. *)
Definition loop_event (e : event) : Prop :=
  (exists v, e = EvP2OUT v) \/ e = EvDelay 1 \/
  (exists m, e = EvADC10MEM m) \/ (exists v, e = EvP1OUT v).

(** The entry of a function of the sequencer, or a store to a struct. *)
Definition is_entry (e : event) : bool :=
  match e with
  | EvPlantState _ | EvPreWaterPlant _ | EvWaterPlant _ | EvHdelay _
  | EvTravelTime _ _ => true
  | _ => false
  end.

(** A soil that the water reaches late: 150 for seven conversions, 700 from
    then on. *)
Definition soil_late : nat -> Z :=
  fun n => if (n <? 7)%nat then 150 else 700.

(** The machine between two stations: the structs as main set them, every
    sensor supply and every valve off, no channel selected and no analog
    input enabled. *)
Definition idle (w : world) : Prop :=
  plants_init w /\
  0 <= P1OUT w < 256 /\ Z.land (P1OUT w) indicators = 0 /\
  0 <= P2OUT w < 256 /\ valves (P2OUT w) = 0 /\
  ADC10CTL1 w = ADC10DIV_7 /\ ADC10AE0 w = 0.

(** ** The entries of a run *)

(** The place of a station in the round of [main]. *)
Definition station_number (p : ptr) : nat :=
  match p with
  | ptr_plant1 => 0
  | ptr_plant2 => 1
  | ptr_plant3 => 2
  end.

(** What the processing of a station enters when it returns without
    calibration: [plantState] and one [waterPlant]. *)
Definition station_entries (p : ptr) : list event :=
  [EvPlantState p; EvWaterPlant p].

(** The entries of a round of [main] that completes: the three stations in
    their order and the sleep. *)
Definition round_entries : list event :=
  station_entries ptr_plant1 ++ station_entries ptr_plant2 ++
  station_entries ptr_plant3 ++ [EvHdelay 48].

(** The entries of the stations that come before [p] in its round. *)
Definition entries_before (p : ptr) : list event :=
  match p with
  | ptr_plant1 => []
  | ptr_plant2 => station_entries ptr_plant1
  | ptr_plant3 => station_entries ptr_plant1 ++ station_entries ptr_plant2
  end.

(** A soil that dries out: 400 for the first round and for station 1 of the
    second, 150 from station 2 of the second round on. *)
Definition soil_drying : nat -> Z :=
  fun n => if (n <? 4)%nat then 400 else 150.

(** ** Tactics *)

(** Runs the register writes of a goal down to one machine. *)

Ltac wsimpl :=
  lazy beta iota zeta delta
    [set_P1OUT set_P2OUT set_ADC10CTL0 set_ADC10CTL1 set_ADC10AE0
     set_plants log P1OUT P2OUT ADC10CTL0 ADC10CTL1 ADC10AE0 plant1 plant2
     plant3 conversions seconds mseconds trace];
  cbn [fst snd world_of P1OUT P2OUT ADC10CTL0 ADC10CTL1 ADC10AE0 plant1
       plant2 plant3 conversions seconds mseconds trace].

Ltac wsimpl_in H :=
  lazy beta iota zeta delta
    [set_P1OUT set_P2OUT set_ADC10CTL0 set_ADC10CTL1 set_ADC10AE0
     set_plants log P1OUT P2OUT ADC10CTL0 ADC10CTL1 ADC10AE0 plant1 plant2
     plant3 conversions seconds mseconds trace] in H;
  cbn [fst snd world_of P1OUT P2OUT ADC10CTL0 ADC10CTL1 ADC10AE0 plant1
       plant2 plant3 conversions seconds mseconds trace] in H.

Ltac bitwise :=
  apply Z.bits_inj'; intros ?n ?Hn; unfold uint8;
  repeat first [ rewrite Z.land_spec | rewrite Z.lor_spec
               | rewrite Z.lnot_spec by assumption ];
  repeat match goal with
         | |- context [Z.testbit ?v ?n] => destruct (Z.testbit v n)
         end; reflexivity.

(** Reads a struct through a machine whose structs are those of [w]. *)
Ltac fold_deref p w :=
  repeat change (deref p (mkWorld ?a ?b ?c ?d ?e (plant1 w) (plant2 w)
                                  (plant3 w) ?n ?s ?ms ?t))
    with (deref p w).

Ltac fold_deref_in p w H :=
  repeat change (deref p (mkWorld ?a ?b ?c ?d ?e (plant1 w) (plant2 w)
                                  (plant3 w) ?n ?s ?ms ?t))
    with (deref p w) in H.

(** Bit by bit, with the equations [H1] and [H2] between masks at hand. *)
Ltac bits_step :=
  repeat first [ rewrite Z.land_spec | rewrite Z.lor_spec
               | rewrite Z.lnot_spec by assumption
               | rewrite Z.bits_0 ].

Ltac bits_by H1 H2 :=
  apply Z.bits_inj';
  let i := fresh "i" in
  let Hi := fresh "Hi" in
  let B1 := fresh "B" in
  let B2 := fresh "B" in
  intros i Hi;
  pose proof (f_equal (fun z => Z.testbit z i) H1) as B1;
  pose proof (f_equal (fun z => Z.testbit z i) H2) as B2;
  cbv beta in B1, B2; unfold uint8, uint16 in *;
  revert B1 B2; bits_step;
  repeat match goal with
         | |- context [Z.testbit ?v i] => destruct (Z.testbit v i)
         end; cbn; congruence.

Ltac bits_plain :=
  apply Z.bits_inj';
  let i := fresh "i" in
  let Hi := fresh "Hi" in
  intros i Hi; unfold uint8, uint16;
  bits_step;
  repeat match goal with
         | |- context [Z.testbit ?v i] => destruct (Z.testbit v i)
         end; reflexivity.

(** * Verification *)

(** ** Closed forms of the waits *)

Lemma iter_tick (n : nat) (w : world) :
  Nat.iter n tick w =
  mkWorld (P1OUT w) (P2OUT w) (ADC10CTL0 w) (ADC10CTL1 w) (ADC10AE0 w)
          (plant1 w) (plant2 w) (plant3 w) (conversions w)
          (seconds w + Z.of_nat n) (mseconds w) (trace w).
Proof.
  induction n as [|n IH].
  - destruct w; cbn. f_equal. lia.
  - rewrite Nat.iter_succ, IH. unfold tick; cbn [P1OUT P2OUT ADC10CTL0 ADC10CTL1
      ADC10AE0 plant1 plant2 plant3 conversions seconds mseconds trace].
    f_equal. lia.
Qed.

Lemma iter_mstick (n : nat) (w : world) :
  Nat.iter n mstick w =
  mkWorld (P1OUT w) (P2OUT w) (ADC10CTL0 w) (ADC10CTL1 w) (ADC10AE0 w)
          (plant1 w) (plant2 w) (plant3 w) (conversions w)
          (seconds w) (mseconds w + Z.of_nat n) (trace w).
Proof.
  induction n as [|n IH].
  - destruct w; cbn. f_equal. lia.
  - rewrite Nat.iter_succ, IH. unfold mstick; cbn [P1OUT P2OUT ADC10CTL0
      ADC10CTL1 ADC10AE0 plant1 plant2 plant3 conversions seconds mseconds trace].
    f_equal. lia.
Qed.

Lemma delay_eq (s : Z) (w : world) :
  delay s w =
  mkWorld (P1OUT w) (P2OUT w) (ADC10CTL0 w) (ADC10CTL1 w) (ADC10AE0 w)
          (plant1 w) (plant2 w) (plant3 w) (conversions w)
          (seconds w + Z.max 0 s) (mseconds w) (trace w ++ [EvDelay s]).
Proof.
  unfold delay. rewrite iter_tick. unfold log; cbn [P1OUT P2OUT ADC10CTL0
    ADC10CTL1 ADC10AE0 plant1 plant2 plant3 conversions seconds mseconds trace].
  f_equal. lia.
Qed.

Lemma msdelay_eq (ms : Z) (w : world) :
  msdelay ms w =
  mkWorld (P1OUT w) (P2OUT w) (ADC10CTL0 w) (ADC10CTL1 w) (ADC10AE0 w)
          (plant1 w) (plant2 w) (plant3 w) (conversions w)
          (seconds w) (mseconds w + Z.max 0 ms) (trace w ++ [EvMsdelay ms]).
Proof.
  unfold msdelay. rewrite iter_mstick. unfold log; cbn [P1OUT P2OUT ADC10CTL0
    ADC10CTL1 ADC10AE0 plant1 plant2 plant3 conversions seconds mseconds trace].
  f_equal. lia.
Qed.

Lemma iter_delay (n : nat) (s : Z) (w : world) :
  Nat.iter n (delay s) w =
  mkWorld (P1OUT w) (P2OUT w) (ADC10CTL0 w) (ADC10CTL1 w) (ADC10AE0 w)
          (plant1 w) (plant2 w) (plant3 w) (conversions w)
          (seconds w + Z.of_nat n * Z.max 0 s) (mseconds w)
          (trace w ++ repeat (EvDelay s) n).
Proof.
  induction n as [|n IH].
  - destruct w; cbn. rewrite app_nil_r. f_equal. lia.
  - rewrite Nat.iter_succ, IH, delay_eq. cbn [P1OUT P2OUT ADC10CTL0 ADC10CTL1
      ADC10AE0 plant1 plant2 plant3 conversions seconds mseconds trace].
    f_equal; [lia|].
    rewrite <- app_assoc. f_equal.
    change [EvDelay s] with (repeat (EvDelay s) 1).
    rewrite <- repeat_app. f_equal. lia.
Qed.

Lemma hdelay_eq (h : Z) (w : world) :
  hdelay h w =
  mkWorld (P1OUT w) (P2OUT w) (ADC10CTL0 w) (ADC10CTL1 w) (ADC10AE0 w)
          (plant1 w) (plant2 w) (plant3 w) (conversions w)
          (seconds w + Z.max 0 h * 3600) (mseconds w)
          (trace w ++ EvHdelay h :: repeat (EvDelay 3600) (Z.to_nat h)).
Proof.
  unfold hdelay. rewrite iter_delay. unfold log; cbn [P1OUT P2OUT ADC10CTL0
    ADC10CTL1 ADC10AE0 plant1 plant2 plant3 conversions seconds mseconds trace].
  f_equal; [lia|]. now rewrite <- app_assoc.
Qed.

(** ** Bits of the port registers *)

Lemma uint8_lor_idem (v m : Z) :
  uint8 (Z.lor (uint8 (Z.lor v m)) m) = uint8 (Z.lor v m).
Proof. bitwise. Qed.

Lemma uint8_idem (v : Z) : uint8 (uint8 v) = uint8 v.
Proof. bitwise. Qed.

Lemma uint8_lor_keeps (v m : Z) :
  Z.land (uint8 (Z.lor v m)) (uint8 m) = uint8 m.
Proof. bitwise. Qed.

Lemma uint8_lor_mono (v m k : Z) :
  Z.land v k = k -> Z.land (uint8 (Z.lor v m)) (uint8 k) = uint8 k.
Proof.
  intros H.
  apply Z.bits_inj'; intros n Hn.
  assert (Hb : Z.testbit (Z.land v k) n = Z.testbit k n) by now rewrite H.
  revert Hb. unfold uint8.
  rewrite ?Z.land_spec, ?Z.lor_spec, ?Z.land_spec.
  repeat match goal with
         | |- context [Z.testbit ?v ?n] => destruct (Z.testbit v n)
         end; cbn; congruence.
Qed.

(** ** The calibration loop *)

Section Calibration.

Variable ADC10MEM : nat -> Z.

Lemma calibration_body_eq (c : Z) (w : world) :
  calibration_body ADC10MEM c w =
  ((ADC10MEM (conversions w), int16 (c + 1)),
   mkWorld (P1OUT w) (uint8 (Z.lor (P2OUT w) BIT3))
           (uint16 (Z.lor (ADC10CTL0 w) (ENC + ADC10SC)))
           (ADC10CTL1 w) (ADC10AE0 w) (plant1 w) (plant2 w) (plant3 w)
           (S (conversions w)) (seconds w + 1) (mseconds w)
           (trace w ++ [EvP2OUT (uint8 (Z.lor (P2OUT w) BIT3)); EvDelay 1;
                        EvADC10MEM (ADC10MEM (conversions w))])).
Proof.
  unfold calibration_body, checkMoisture. rewrite delay_eq. wsimpl.
  now rewrite <- !app_assoc.
Qed.

Lemma continue_true (m c : Z) :
  m < MOISTURE_MAX \/ c < MAX_TRAVEL ->
  (m <? MOISTURE_MAX) || (c <? MAX_TRAVEL) = true.
Proof.
  intros H. apply orb_true_iff. destruct H; [left|right]; now apply Z.ltb_lt.
Qed.

Lemma continue_false (m c : Z) :
  MOISTURE_MAX <= m -> MAX_TRAVEL <= c ->
  (m <? MOISTURE_MAX) || (c <? MAX_TRAVEL) = false.
Proof.
  intros Hm Hc. apply orb_false_iff; split; apply Z.ltb_ge; assumption.
Qed.

Lemma calibration_exit (fuel : nat) (m c : Z) (w : world) :
  MOISTURE_MAX <= m -> MAX_TRAVEL <= c ->
  calibration ADC10MEM fuel m c w = Done (m, c) w.
Proof.
  intros Hm Hc. pose proof (continue_false m c Hm Hc) as E.
  destruct fuel; cbn [calibration]; now rewrite E.
Qed.

Lemma calibration_again (fuel : nat) (m c : Z) (w : world) :
  m < MOISTURE_MAX \/ c < MAX_TRAVEL ->
  calibration ADC10MEM (S fuel) m c w =
  calibration ADC10MEM fuel (ADC10MEM (conversions w)) (int16 (c + 1))
              (snd (calibration_body ADC10MEM c w)).
Proof.
  intros H. cbn [calibration].
  rewrite (continue_true m c H), calibration_body_eq. reflexivity.
Qed.

End Calibration.

(** ** Frames *)

Lemma extends_refl (Q : event -> Prop) (w : world) : extends Q w w.
Proof. exists []. split; [now rewrite app_nil_r | constructor]. Qed.

Lemma extends_trans (Q : event -> Prop) (w1 w2 w3 : world) :
  extends Q w1 w2 -> extends Q w2 w3 -> extends Q w1 w3.
Proof.
  intros (t1 & E1 & F1) (t2 & E2 & F2). exists (t1 ++ t2). split.
  - now rewrite E2, E1, app_assoc.
  - apply Forall_app; now split.
Qed.

Lemma extends_weaken (Q R : event -> Prop) (w w' : world) :
  (forall e, Q e -> R e) -> extends Q w w' -> extends R w w'.
Proof.
  intros H (t & E & F). exists t. split; [assumption|].
  eapply Forall_impl; eauto.
Qed.

Lemma same_plants_refl (w : world) : same_plants w w.
Proof. now repeat split. Qed.

Lemma same_plants_trans (w1 w2 w3 : world) :
  same_plants w1 w2 -> same_plants w2 w3 -> same_plants w1 w3.
Proof.
  unfold same_plants. intros (A1 & A2 & A3) (B1 & B2 & B3).
  repeat split; congruence.
Qed.

Lemma same_plants_deref (p : ptr) (w w' : world) :
  same_plants w w' -> deref p w' = deref p w.
Proof. intros (A1 & A2 & A3). destruct p; assumption. Qed.

Section CalibrationRuns.

Variable ADC10MEM : nat -> Z.

(** What a budgeted run of the loop can have done. *)
Lemma calibration_spec (fuel : nat) :
  forall (m c : Z) (w : world),
    let o := calibration ADC10MEM fuel m c w in
    same_plants w (world_of o) /\
    P1OUT (world_of o) = P1OUT w /\
    extends (cal_event (uint8 (Z.lor (P2OUT w) BIT3))) w (world_of o) /\
    match o with
    | Done (m', c') w' =>
        MOISTURE_MAX <= m' /\ MAX_TRAVEL <= c' /\
        ((m', c', w') = (m, c, w) \/
         P2OUT w' = uint8 (Z.lor (P2OUT w) BIT3))
    | Spin l w' =>
        l = InCalibration /\
        (P2OUT w' = P2OUT w \/ P2OUT w' = uint8 (Z.lor (P2OUT w) BIT3))
    end.
Proof.
  induction fuel as [|fuel IH]; intros m c w o; subst o.
  - cbn [calibration].
    destruct ((m <? MOISTURE_MAX) || (c <? MAX_TRAVEL)) eqn:E; cbn [world_of].
    + repeat split; auto using extends_refl.
    + apply orb_false_iff in E as [E1 E2].
      apply Z.ltb_ge in E1, E2.
      repeat split; auto using extends_refl.
  - cbn [calibration].
    destruct ((m <? MOISTURE_MAX) || (c <? MAX_TRAVEL)) eqn:E; cbn [world_of].
    + rewrite calibration_body_eq.
      match goal with
      | |- context [calibration _ fuel ?m' ?c' ?w'] =>
          specialize (IH m' c' w'); set (w1 := w') in *
      end.
      cbn zeta in IH.
      assert (P2 : P2OUT w1 = uint8 (Z.lor (P2OUT w) BIT3)) by reflexivity.
      rewrite P2, uint8_lor_idem in IH.
      destruct IH as (Hp & H1 & Hx & Hout).
      assert (Hw : extends (cal_event (uint8 (Z.lor (P2OUT w) BIT3))) w w1).
      { eexists. split; [reflexivity|].
        apply Forall_cons; [left; reflexivity|].
        apply Forall_cons; [right; left; reflexivity|].
        apply Forall_cons; [right; right; eexists; reflexivity|].
        constructor. }
      split; [|split; [|split]].
      * destruct Hp as (A & B & C). repeat split; assumption.
      * exact H1.
      * eapply extends_trans; eassumption.
      * destruct (calibration ADC10MEM fuel _ _ w1) as [[m' c'] w'|l w'].
        -- destruct Hout as (Hm & Hc & Hd).
           split; [exact Hm|]. split; [exact Hc|]. right.
           destruct Hd as [Heq|Hv]; [|exact Hv].
           injection Heq as -> -> ->. exact P2.
        -- destruct Hout as (Hl & Hd). split; [exact Hl|]. right.
           destruct Hd as [Hv|Hv]; [now rewrite Hv | exact Hv].
    + apply orb_false_iff in E as [E1 E2].
      apply Z.ltb_ge in E1, E2.
      repeat split; auto using extends_refl.
Qed.

(** The loop leaves only with the counter at the bound. *)
Lemma calibration_done (fuel : nat) (m c m' c' : Z) (w w' : world) :
  calibration ADC10MEM fuel m c w = Done (m', c') w' ->
  MOISTURE_MAX <= m' /\ MAX_TRAVEL <= c'.
Proof.
  intros H. pose proof (calibration_spec fuel m c w) as S.
  cbn zeta in S. rewrite H in S. tauto.
Qed.

End CalibrationRuns.

(** ** The alarm *)

Lemma alarm_on_again (v m : Z) :
  uint8 (Z.lor (uint8 (Z.land (uint8 (Z.lor v m)) (Z.lnot m))) m) =
  uint8 (Z.lor v m).
Proof. bitwise. Qed.

Lemma alarm_body_eq (w : world) :
  alarm_body w =
  mkWorld (uint8 (Z.land (uint8 (Z.lor (P1OUT w) indicators))
                         (Z.lnot indicators)))
          (P2OUT w) (ADC10CTL0 w) (ADC10CTL1 w) (ADC10AE0 w)
          (plant1 w) (plant2 w) (plant3 w) (conversions w)
          (seconds w + 2) (mseconds w)
          (trace w ++ alarm_round (P1OUT w)).
Proof.
  unfold alarm_body. rewrite !delay_eq. wsimpl.
  rewrite <- !app_assoc. cbn [app]. unfold alarm_round, indicators.
  f_equal. lia.
Qed.

Lemma alarm_round_again (w : world) :
  alarm_round (P1OUT (alarm_body w)) = alarm_round (P1OUT w).
Proof.
  rewrite alarm_body_eq. cbn [P1OUT]. unfold alarm_round.
  now rewrite alarm_on_again.
Qed.

Lemma alarm_spec (n : nat) :
  forall w : world,
    P2OUT (alarm n w) = P2OUT w /\
    same_plants w (alarm n w) /\
    conversions (alarm n w) = conversions w /\
    seconds (alarm n w) = seconds w + 2 * Z.of_nat n /\
    trace (alarm n w) = trace w ++ concat (repeat (alarm_round (P1OUT w)) n).
Proof.
  induction n as [|n IH]; intros w.
  - cbn [alarm repeat concat]. rewrite app_nil_r.
    repeat split; lia.
  - cbn [alarm]. destruct (IH (alarm_body w)) as (A & B & C & D & E).
    rewrite A, C, D, E, alarm_round_again.
    rewrite alarm_body_eq in *. cbn [P2OUT conversions seconds trace] in *.
    split; [reflexivity|]. split.
    { destruct B as (B1 & B2 & B3). repeat split; assumption. }
    split; [reflexivity|]. split; [lia|].
    cbn [repeat concat]. now rewrite <- app_assoc.
Qed.

Lemma alarm_round_events (p1 : Z) : Forall alarm_event (alarm_round p1).
Proof.
  unfold alarm_round.
  repeat (apply Forall_cons; [first [left; reflexivity | right; eexists; reflexivity]|]).
  constructor.
Qed.

Lemma alarm_extends (n : nat) (w : world) : extends alarm_event w (alarm n w).
Proof.
  destruct (alarm_spec n w) as (_ & _ & _ & _ & E).
  eexists. split; [exact E|].
  apply Forall_concat, Forall_forall. intros l Hl.
  apply repeat_spec in Hl. subst l. apply alarm_round_events.
Qed.

(** ** Travel calibration *)

Section PreWater.

Variable ADC10MEM : nat -> Z.

Lemma preWaterPlant_spec (fuel : nat) (p : ptr) (w : world) :
  let x1 := uint8 (Z.lor (P2OUT w) (activateSolenoid (deref p w))) in
  let x2 := uint8 (Z.lor x1 BIT3) in
  exists (l : loop) (w' : world),
    preWaterPlant ADC10MEM fuel p w = Spin l w' /\
    same_plants w w' /\
    extends (pre_event p x1 x2) (log (EvPreWaterPlant p) w) w' /\
    (l = InCalibration /\ (P2OUT w' = x1 \/ P2OUT w' = x2) \/
     l = InAlarm /\
     exists w1 : world,
       w' = alarm fuel w1 /\ P2OUT w1 = x2 /\ same_plants w w1 /\
       extends (pre_event p x1 x2) (log (EvPreWaterPlant p) w) w1).
Proof.
  intros x1 x2. unfold preWaterPlant, checkMoisture.
  rewrite delay_eq. wsimpl. fold_deref p w. fold x1.
  match goal with
  | |- context [calibration _ fuel ?m ?c ?w0] =>
      pose proof (calibration_spec ADC10MEM fuel m c w0) as S;
      set (w1 := w0) in *
  end.
  cbn zeta in S.
  assert (P2 : P2OUT w1 = x1) by reflexivity.
  rewrite P2 in S. fold x2 in S.
  assert (Hw1 : extends (pre_event p x1 x2) (log (EvPreWaterPlant p) w) w1).
  { eexists. split; [subst w1; cbn [trace log]; rewrite <- !app_assoc; reflexivity|].
    apply Forall_cons; [do 4 right; left; eexists; reflexivity|].
    apply Forall_cons; [right; left; reflexivity|].
    apply Forall_cons; [do 3 right; left; reflexivity|].
    constructor. }
  assert (Hcal : forall e, cal_event x2 e -> pre_event p x1 x2 e).
  { intros e [->|[->|[m ->]]]; unfold pre_event; eauto 10. }
  assert (Hal : forall e, alarm_event e -> pre_event p x1 x2 e).
  { intros e [->|[v ->]]; unfold pre_event; eauto 10. }
  assert (Hp1 : same_plants w w1) by (subst w1; now repeat split).
  destruct S as (Hp & _ & Hx & Hout).
  apply (extends_weaken _ _ _ _ Hcal) in Hx.
  destruct (calibration ADC10MEM fuel _ 0 w1) as [[m' c'] w'|l w'];
    cbn [world_of] in *.
  - destruct Hout as (Hm & Hc & Hd).
    assert (E : (c' >=? MAX_TRAVEL) = true) by (apply Z.geb_le; exact Hc).
    rewrite E. exists InAlarm, (alarm fuel w'). split; [reflexivity|].
    assert (Hpw : same_plants w w') by (eapply same_plants_trans; eassumption).
    assert (Hxw : extends (pre_event p x1 x2) (log (EvPreWaterPlant p) w) w')
      by (eapply extends_trans; eassumption).
    destruct (alarm_spec fuel w') as (A & B & _).
    split; [eapply same_plants_trans; eassumption|].
    split.
    { eapply extends_trans; [exact Hxw|].
      eapply extends_weaken; [exact Hal | apply alarm_extends]. }
    right. split; [reflexivity|]. exists w'.
    split; [reflexivity|]. split; [|split; assumption].
    destruct Hd as [Heq|Hv]; [|exact Hv].
    injection Heq as _ -> _. unfold MAX_TRAVEL in Hc. lia.
  - destruct Hout as (-> & Hd).
    exists InCalibration, w'. split; [reflexivity|].
    split; [eapply same_plants_trans; eassumption|].
    split; [eapply extends_trans; eassumption|].
    left. split; [reflexivity|]. exact Hd.
Qed.

(** Calibration has no way back to its caller. *)
Lemma preWaterPlant_never_done (fuel : nat) (p : ptr) (w w' : world) :
  preWaterPlant ADC10MEM fuel p w <> Done tt w'.
Proof.
  destruct (preWaterPlant_spec fuel p w) as (l & w1 & E & _).
  rewrite E. discriminate.
Qed.

End PreWater.

(** ** The watering actuator *)

Lemma waterPlant_eq (p : ptr) (w : world) :
  waterPlant p w =
  mkWorld (P1OUT w) (dose_end (P2OUT w) (deref p w))
          (ADC10CTL0 w) (ADC10CTL1 w) (ADC10AE0 w)
          (plant1 w) (plant2 w) (plant3 w) (conversions w)
          (seconds w + 3 + Z.max 0 (int16 (travelTime (deref p w) + SOAK_TIME)))
          (mseconds w)
          (trace w ++ dose_events p (P2OUT w) (deref p w)).
Proof.
  unfold waterPlant. rewrite !delay_eq. wsimpl. fold_deref p w.
  rewrite <- !app_assoc. cbn [app]. unfold dose_events, dose_end.
  f_equal. lia.
Qed.

Lemma valves_uint8 (v : Z) : valves (uint8 v) = valves v.
Proof.
  unfold valves, uint8. rewrite <- Z.land_assoc. reflexivity.
Qed.

Lemma valves_lor (v m : Z) :
  valves (uint8 (Z.lor v m)) = Z.lor (valves v) (valves m).
Proof.
  rewrite valves_uint8. unfold valves. apply Z.land_lor_distr_l.
Qed.

Lemma valves_clear (v m : Z) :
  valves (uint8 (Z.land v (Z.lnot m))) = Z.land (valves v) (Z.lnot m).
Proof.
  rewrite valves_uint8. unfold valves.
  rewrite <- !Z.land_assoc. f_equal. apply Z.land_comm.
Qed.

Lemma testbit_valves (v : Z) (i : Z) :
  0 <= i < 4 -> Z.testbit v i = Z.testbit (valves v) i.
Proof.
  intros Hi. unfold valves. rewrite Z.land_spec.
  assert (E : Z.testbit 15 i = true).
  { assert (C : i = 0 \/ i = 1 \/ i = 2 \/ i = 3) by lia.
    destruct C as [->|[->|[->| ->]]]; reflexivity. }
  rewrite E. now rewrite andb_true_r.
Qed.

Lemma wired_deref (p : ptr) (w : world) :
  wired w ->
  activateSolenoid (deref p w) = BIT0 \/
  activateSolenoid (deref p w) = BIT1 \/
  activateSolenoid (deref p w) = BIT2.
Proof. intros (A & B & C). destruct p; cbn [deref]; auto. Qed.

(** A dose from closed valves: the station valve, then the shared line with
    it, then the station valve alone, then nothing. *)
Lemma dose_valves (p2 sol : Z) :
  valves p2 = 0 -> sol = BIT0 \/ sol = BIT1 \/ sol = BIT2 ->
  let x1 := uint8 (Z.lor p2 sol) in
  let x2 := uint8 (Z.lor x1 BIT3) in
  let x3 := uint8 (Z.land x2 (Z.lnot BIT3)) in
  let x4 := uint8 (Z.land x3 (Z.lnot sol)) in
  valves x1 = sol /\ valves x2 = Z.lor sol BIT3 /\
  valves x3 = sol /\ valves x4 = 0.
Proof.
  intros H0 Hs x1 x2 x3 x4. subst x1 x2 x3 x4.
  rewrite !valves_clear, !valves_lor, H0.
  destruct Hs as [->|[->| ->]]; repeat split; reflexivity.
Qed.

(** ** The station sequencer *)

Section Station.

Variable ADC10MEM : nat -> Z.

(** The machine when [plantState] has taken its sample. *)
Lemma plantState_eq (fuel : nat) (p : ptr) (w : world) :
  plantState ADC10MEM fuel p w =
  let m := ADC10MEM (conversions w) in
  let ws :=
    mkWorld (uint8 (Z.lor (P1OUT w) (enableADC (deref p w)))) (P2OUT w)
            (uint16 (Z.lor (ADC10CTL0 w) (ENC + ADC10SC)))
            (uint16 (Z.lor (ADC10CTL1 w) (selectADC (deref p w))))
            (uint8 (Z.lor (ADC10AE0 w) (sampleADC (deref p w))))
            (plant1 w) (plant2 w) (plant3 w) (S (conversions w))
            (seconds w) (mseconds w + 500)
            (trace w ++ sense_events p (P1OUT w) (deref p w) m) in
  if m <? MOISTURE_MIN then
    match preWaterPlant ADC10MEM fuel p ws with
    | Done _ w1 =>
        Done tt (deinitializeADC p (waterPlant p (waterPlant p (delay 60 w1))))
    | Spin l w1 => Spin l w1
    end
  else Done tt (deinitializeADC p (waterPlant p ws)).
Proof.
  unfold plantState, bind, exec, call, ret.
  unfold initializeADC, checkMoisture. rewrite msdelay_eq. wsimpl.
  fold_deref p w. rewrite <- !app_assoc. cbn [app].
  fold (sense_events p (P1OUT w) (deref p w) (ADC10MEM (conversions w))).
  cbn zeta.
  match goal with
  | |- context [if ?c then _ else _] => destruct c
  end; [|reflexivity].
  destruct (preWaterPlant ADC10MEM fuel p _) as [[] w1|l w1]; reflexivity.
Qed.

Lemma plantState_wet (fuel : nat) (p : ptr) (w : world) :
  MOISTURE_MIN <= ADC10MEM (conversions w) ->
  exists w' : world,
    plantState ADC10MEM fuel p w = Done tt w' /\
    same_plants w w' /\
    P2OUT w' = dose_end (P2OUT w) (deref p w) /\
    conversions w' = S (conversions w) /\
    seconds w' =
      seconds w + 3 + Z.max 0 (int16 (travelTime (deref p w) + SOAK_TIME)) /\
    trace w' =
      trace w ++ wet_events p (P1OUT w) (P2OUT w) (deref p w)
                            (ADC10MEM (conversions w)).
Proof.
  intros H. rewrite plantState_eq. cbn zeta.
  apply Z.ltb_ge in H. rewrite H.
  eexists. split; [reflexivity|].
  rewrite waterPlant_eq. unfold deinitializeADC. wsimpl. fold_deref p w.
  repeat split. unfold wet_events. now rewrite <- !app_assoc.
Qed.

Lemma plantState_dry (fuel : nat) (p : ptr) (w : world) :
  ADC10MEM (conversions w) < MOISTURE_MIN ->
  let x1 := uint8 (Z.lor (P2OUT w) (activateSolenoid (deref p w))) in
  let x2 := uint8 (Z.lor x1 BIT3) in
  exists (l : loop) (w' : world) (rest : list event),
    plantState ADC10MEM fuel p w = Spin l w' /\
    same_plants w w' /\
    trace w' =
      trace w ++ sense_events p (P1OUT w) (deref p w)
                              (ADC10MEM (conversions w)) ++
      EvPreWaterPlant p :: rest /\
    Forall (pre_event p x1 x2) rest /\
    (l = InCalibration /\ (P2OUT w' = x1 \/ P2OUT w' = x2) \/
     l = InAlarm /\ P2OUT w' = x2).
Proof.
  intros H x1 x2. rewrite plantState_eq. cbn zeta.
  apply Z.ltb_lt in H. rewrite H.
  match goal with
  | |- context [preWaterPlant _ fuel p ?w0] =>
      destruct (preWaterPlant_spec ADC10MEM fuel p w0)
        as (l & w' & E & Hp & (rest & Ht & Hf) & Hl)
  end.
  rewrite E. cbn [P2OUT trace] in *. fold_deref p w. fold_deref_in p w Hf.
  fold_deref_in p w Hl.
  exists l, w', rest. split; [reflexivity|].
  split; [exact Hp|].
  split; [rewrite Ht; cbn [log trace]; now rewrite <- !app_assoc|].
  split; [exact Hf|].
  destruct Hl as [(-> & Hd)|(-> & w1 & -> & Hv & _)]; [left; now split|].
  right. split; [reflexivity|].
  destruct (alarm_spec fuel w1) as (A & _). now rewrite A.
Qed.

End Station.

(** ** The schedule *)

Lemma monitor_app (st : phase * Z) (t1 t2 : list event) :
  monitor st (t1 ++ t2) =
  match monitor st t1 with
  | Some st' => monitor st' t2
  | None => None
  end.
Proof.
  revert st. induction t1 as [|e t1 IH]; intros st; cbn [app monitor].
  - reflexivity.
  - destruct (mstep st e); [apply IH | reflexivity].
Qed.

Lemma ptr_eqb_refl (p : ptr) : ptr_eqb p p = true.
Proof. now destruct p. Qed.

Lemma own_valve_ok (p : ptr) :
  (Z.land (solenoid p) (Z.lnot (Z.lor (solenoid p) BIT3)) =? 0) = true.
Proof. now destruct p. Qed.

Lemma own_valve_shared_ok (p : ptr) :
  (Z.land (Z.lor (solenoid p) BIT3) (Z.lnot (Z.lor (solenoid p) BIT3)) =? 0)
  = true.
Proof. now destruct p. Qed.

Lemma closed_ok (p : ptr) :
  (Z.land 0 (Z.lnot (Z.lor (solenoid p) BIT3)) =? 0) = true.
Proof. reflexivity. Qed.

Lemma plants_init_solenoid (p : ptr) (w : world) :
  plants_init w -> activateSolenoid (deref p w) = solenoid p.
Proof. intros (A & B & C). destruct p; cbn [deref]; now rewrite ?A, ?B, ?C. Qed.

Lemma plants_init_travelTime (p : ptr) (w : world) :
  plants_init w -> travelTime (deref p w) = 0.
Proof. intros (A & B & C). destruct p; cbn [deref]; now rewrite ?A, ?B, ?C. Qed.

Lemma plants_init_same (w w' : world) :
  plants_init w -> same_plants w w' -> plants_init w'.
Proof.
  unfold plants_init, same_plants. intros (A & B & C) (A' & B' & C').
  repeat split; congruence.
Qed.

Lemma solenoid_cases (p : ptr) :
  solenoid p = BIT0 \/ solenoid p = BIT1 \/ solenoid p = BIT2.
Proof. destruct p; auto. Qed.

(** While a station calibrates, the monitor stays with it. *)
Lemma monitor_pre_events (p : ptr) (x1 x2 : Z) (tr : list event) :
  valves x1 = solenoid p -> valves x2 = Z.lor (solenoid p) BIT3 ->
  Forall (pre_event p x1 x2) tr ->
  forall o : Z, exists o' : Z,
    monitor (Station p, o) tr = Some (Station p, o').
Proof.
  intros H1 H2 F. induction F as [|e tr He _ IH]; intros o.
  - exists o. reflexivity.
  - cbn [monitor].
    destruct He as [->|[->|[->|[->|[[m ->]|[v ->]]]]]]; cbn [mstep].
    + rewrite ptr_eqb_refl. apply IH.
    + rewrite H1, own_valve_ok. apply IH.
    + rewrite H2, own_valve_shared_ok. apply IH.
    + apply IH.
    + apply IH.
    + apply IH.
Qed.

Lemma pre_event_no_store (p : ptr) (x1 x2 : Z) (e : event) :
  pre_event p x1 x2 e -> no_store e.
Proof.
  intros [->|[->|[->|[->|[[m ->]|[v ->]]]]]]; exact I.
Qed.

Lemma wet_events_no_store (p : ptr) (p1 p2 : Z) (q : plantProperty) (m : Z) :
  Forall no_store (wet_events p p1 p2 q m).
Proof.
  unfold wet_events, sense_events, dose_events. cbn [app].
  repeat (apply Forall_cons; [exact I|]). constructor.
Qed.

Lemma sense_events_no_store (p : ptr) (p1 : Z) (q : plantProperty) (m : Z) :
  Forall no_store (sense_events p p1 q m).
Proof.
  unfold sense_events. repeat (apply Forall_cons; [exact I|]). constructor.
Qed.

Section Schedule.

Variable ADC10MEM : nat -> Z.

(** One station, started in its turn with the valves closed. *)
Lemma plantState_inv (fuel : nat) (p : ptr) (w : world)
      (st0 : phase * Z) (ph : phase) :
  plants_init w -> valves (P2OUT w) = 0 ->
  monitor st0 (trace w) = Some (ph, 0) -> next_station ph p = true ->
  let o := plantState ADC10MEM fuel p w in
  plants_init (world_of o) /\
  extends no_store w (world_of o) /\
  match o with
  | Done _ w' =>
      valves (P2OUT w') = 0 /\
      monitor st0 (trace w') = Some (Station p, 0)
  | Spin l w' =>
      (l = InCalibration \/ l = InAlarm) /\
      exists o' : Z, monitor st0 (trace w') = Some (Station p, o')
  end.
Proof.
  intros Hi Hv Hm Hn o. subst o.
  pose proof (plants_init_solenoid p w Hi) as Hs.
  destruct (dose_valves (P2OUT w) (solenoid p) Hv (solenoid_cases p))
    as (V1 & V2 & V3 & V4).
  destruct (Z.lt_ge_cases (ADC10MEM (conversions w)) MOISTURE_MIN) as [Hd|Hw].
  - destruct (plantState_dry ADC10MEM fuel p w Hd)
      as (l & w' & rest & E & Hp & Ht & Hf & Hl).
    rewrite E. cbn [world_of]. rewrite Hs in Hf.
    split; [eapply plants_init_same; eassumption|].
    split.
    { eexists. split; [exact Ht|]. apply Forall_app. split.
      - apply sense_events_no_store.
      - apply Forall_cons; [exact I|].
        eapply Forall_impl; [|exact Hf]. apply pre_event_no_store. }
    split; [destruct Hl as [(-> & _)|(-> & _)]; auto|].
    rewrite Ht, monitor_app, Hm, monitor_app.
    unfold sense_events. cbn [monitor mstep]. rewrite Hn.
    cbn [Z.eqb andb monitor mstep].
    rewrite ptr_eqb_refl.
    apply (monitor_pre_events p _ _ rest V1 V2 Hf).
  - destruct (plantState_wet ADC10MEM fuel p w Hw)
      as (w' & E & Hp & H2 & _ & _ & Ht).
    rewrite E. cbn [world_of].
    split; [eapply plants_init_same; eassumption|].
    split; [eexists; split; [exact Ht | apply wet_events_no_store]|].
    rewrite H2. unfold dose_end. rewrite Hs. split; [exact V4|].
    rewrite Ht, monitor_app, Hm.
    unfold wet_events, sense_events, dose_events. rewrite Hs.
    cbn [app monitor mstep]. rewrite Hn. cbn [Z.eqb andb monitor mstep].
    rewrite ptr_eqb_refl. cbn [monitor mstep].
    rewrite V1, own_valve_ok. cbn [monitor mstep].
    rewrite V2, own_valve_shared_ok. cbn [monitor mstep].
    rewrite V3, own_valve_ok. cbn [monitor mstep].
    rewrite V4. reflexivity.
Qed.

(** One round of the outer loop. *)
Lemma cycle_inv (fuel : nat) (w : world) (st0 : phase * Z) (ph : phase) :
  plants_init w -> valves (P2OUT w) = 0 ->
  monitor st0 (trace w) = Some (ph, 0) ->
  next_station ph ptr_plant1 = true ->
  let o := cycle ADC10MEM fuel w in
  plants_init (world_of o) /\
  extends no_store w (world_of o) /\
  match o with
  | Done _ w' =>
      valves (P2OUT w') = 0 /\
      monitor st0 (trace w') = Some (Sleeping 48, 0)
  | Spin l w' =>
      (l = InCalibration \/ l = InAlarm) /\
      exists st' : phase * Z, monitor st0 (trace w') = Some st'
  end.
Proof.
  intros Hi Hv Hm Hn o. subst o. unfold cycle, bind.
  pose proof (plantState_inv fuel ptr_plant1 w st0 ph Hi Hv Hm Hn) as S1.
  cbn zeta in S1.
  destruct (plantState ADC10MEM fuel ptr_plant1 w) as [[] w1|l w1];
    cbn [world_of] in *.
  2:{ destruct S1 as (A & B & C & o' & D).
      split; [exact A|]. split; [exact B|]. split; [exact C|].
      eexists; exact D. }
  destruct S1 as (Hi1 & Hx1 & Hv1 & Hm1).
  pose proof (plantState_inv fuel ptr_plant2 w1 st0 _ Hi1 Hv1 Hm1 eq_refl) as S2.
  cbn zeta in S2.
  destruct (plantState ADC10MEM fuel ptr_plant2 w1) as [[] w2|l w2];
    cbn [world_of] in *.
  2:{ destruct S2 as (A & B & C & o' & D).
      split; [exact A|]. split; [eapply extends_trans; eassumption|].
      split; [exact C|]. eexists; exact D. }
  destruct S2 as (Hi2 & Hx2 & Hv2 & Hm2).
  pose proof (plantState_inv fuel ptr_plant3 w2 st0 _ Hi2 Hv2 Hm2 eq_refl) as S3.
  cbn zeta in S3.
  destruct (plantState ADC10MEM fuel ptr_plant3 w2) as [[] w3|l w3];
    cbn [world_of] in *.
  2:{ destruct S3 as (A & B & C & o' & D).
      split; [exact A|].
      split; [eapply extends_trans; [exact Hx1|];
              eapply extends_trans; eassumption|].
      split; [exact C|]. eexists; exact D. }
  destruct S3 as (Hi3 & Hx3 & Hv3 & Hm3).
  unfold exec. cbn [world_of]. rewrite hdelay_eq. cbn [P2OUT trace].
  split; [exact Hi3|]. split.
  { eapply extends_trans; [exact Hx1|].
    eapply extends_trans; [exact Hx2|].
    eapply extends_trans; [exact Hx3|].
    eexists. split; [reflexivity|].
    apply Forall_cons; [exact I|].
    apply Forall_forall. intros e He. apply repeat_spec in He. now subst e. }
  split; [exact Hv3|].
  rewrite monitor_app, Hm3. reflexivity.
Qed.

(** The outer loop from the head of a round. *)
Lemma main_loop_inv (fuel rounds : nat) :
  forall (w : world) (st0 : phase * Z) (ph : phase),
    plants_init w -> valves (P2OUT w) = 0 ->
    monitor st0 (trace w) = Some (ph, 0) ->
    next_station ph ptr_plant1 = true ->
    let w' := snd (main_loop ADC10MEM fuel rounds w) in
    plants_init w' /\ extends no_store w w' /\
    exists st' : phase * Z, monitor st0 (trace w') = Some st'.
Proof.
  induction rounds as [|rounds IH]; intros w st0 ph Hi Hv Hm Hn w'; subst w'.
  - cbn [main_loop snd]. split; [exact Hi|].
    split; [apply extends_refl|]. eexists; exact Hm.
  - cbn [main_loop].
    pose proof (cycle_inv fuel w st0 ph Hi Hv Hm Hn) as C. cbn zeta in C.
    destruct (cycle ADC10MEM fuel w) as [[] w1|l w1]; cbn [world_of snd] in *.
    + destruct C as (Hi1 & Hx1 & Hv1 & Hm1).
      destruct (IH w1 st0 _ Hi1 Hv1 Hm1 eq_refl) as (A & B & D).
      split; [exact A|]. split; [eapply extends_trans; eassumption|].
      exact D.
    + destruct C as (A & B & _ & D).
      split; [exact A|]. split; [exact B | exact D].
Qed.

Lemma startup_trace (p1 p2 : Z) :
  trace (startup p1 p2) =
  [EvP1OUT (uint8 (Z.land (uint8 p1) (Z.lnot indicators)));
   EvP2OUT (uint8 (Z.land (uint8 p2) (Z.lnot 15)))].
Proof. reflexivity. Qed.

Lemma startup_closed (p1 p2 : Z) : valves (P2OUT (startup p1 p2)) = 0.
Proof.
  cbn [startup initialize set_plants P2OUT set_ADC10CTL0 set_ADC10CTL1
       set_P2OUT set_P1OUT log power_on].
  change (BIT0 + BIT1 + BIT2 + BIT3) with 15.
  rewrite valves_clear. unfold valves.
  apply Z.bits_inj'; intros n Hn.
  rewrite !Z.land_spec, Z.lnot_spec, Z.bits_0 by assumption.
  destruct (Z.testbit 15 n); cbn; now rewrite ?andb_false_r.
Qed.

Lemma startup_plants (p1 p2 : Z) : plants_init (startup p1 p2).
Proof. now repeat split. Qed.

Lemma startup_monitor (p1 p2 : Z) (st0 : phase * Z) :
  fst st0 = Startup ->
  monitor st0 (trace (startup p1 p2)) = Some (Startup, 0).
Proof.
  destruct st0 as [ph o]. cbn [fst]. intros ->.
  rewrite startup_trace. cbn [monitor mstep].
  pose proof (startup_closed p1 p2) as H.
  cbn [startup initialize set_plants P2OUT set_ADC10CTL0 set_ADC10CTL1
       set_P2OUT set_P1OUT log power_on] in H.
  change (BIT0 + BIT1 + BIT2 + BIT3) with 15 in H.
  now rewrite H.
Qed.

(** Every budgeted run of [main]: the structs untouched, no store to a
    [travelTime], the schedule kept. *)
Lemma main_inv (fuel : nat) (p1 p2 : Z) :
  let w' := snd (main ADC10MEM fuel p1 p2) in
  plants_init w' /\ Forall no_store (trace w') /\
  exists st' : phase * Z,
    monitor (Startup, valves (uint8 p2)) (trace w') = Some st'.
Proof.
  intros w'. subst w'. unfold main.
  destruct (main_loop_inv fuel fuel (startup p1 p2)
              (Startup, valves (uint8 p2)) Startup
              (startup_plants p1 p2) (startup_closed p1 p2)
              (startup_monitor p1 p2 (Startup, valves (uint8 p2)) eq_refl)
              eq_refl)
    as (A & (tr & Et & Ft) & D).
  split; [exact A|]. split; [|exact D].
  rewrite Et, startup_trace. apply Forall_app. split; [|exact Ft].
  repeat (apply Forall_cons; [exact I|]). constructor.
Qed.

End Schedule.

(** ** Runs *)

(** The processing of station 1 on the first round, read at 400. *)
Example wet_station_trace :
  trace (world_of (plantState soil_wet 0 ptr_plant1 (startup 0 0))) =
  [EvP1OUT 0; EvP2OUT 0;
   EvPlantState ptr_plant1; EvP1OUT 1; EvMsdelay 500; EvADC10MEM 400;
   EvWaterPlant ptr_plant1; EvP2OUT 1; EvDelay 1; EvP2OUT 9; EvDelay 3;
   EvP2OUT 1; EvDelay 2; EvP2OUT 0; EvP1OUT 0].
Proof. vm_compute. reflexivity. Qed.

(** Scenario A with a budget of 5: five rounds of the loop, then five of the
    alarm. *)
Example scenario_A_trace :
  plantState soil_scenario_A 5 ptr_plant1 (startup 0 0) =
  Spin InAlarm
       (mkWorld 0 9 2075 4320 2 plant1_init plant2_init plant3_init 7 16 500
          ([EvP1OUT 0; EvP2OUT 0;
            EvPlantState ptr_plant1; EvP1OUT 1; EvMsdelay 500; EvADC10MEM 150;
            EvPreWaterPlant ptr_plant1; EvADC10MEM 150; EvP2OUT 1; EvDelay 1;
            EvP2OUT 9; EvDelay 1; EvADC10MEM 150;
            EvP2OUT 9; EvDelay 1; EvADC10MEM 150;
            EvP2OUT 9; EvDelay 1; EvADC10MEM 600;
            EvP2OUT 9; EvDelay 1; EvADC10MEM 600;
            EvP2OUT 9; EvDelay 1; EvADC10MEM 600]
           ++ concat (repeat [EvP1OUT 21; EvDelay 1; EvP1OUT 0; EvDelay 1] 5))).
Proof. vm_compute. reflexivity. Qed.

(** A full round on wet soil ends in the sleep, 172818 seconds on. *)
Example wet_round :
  exists w : world,
    cycle soil_wet 0 (startup 0 0) = Done tt w /\
    seconds w = 3 * 6 + 48 * 3600 /\ conversions w = 3%nat /\
    monitor (Startup, 0) (trace w) = Some (Sleeping 48, 0).
Proof. eexists. vm_compute. repeat split. Qed.

Example int16_wraps : int16 (32767 + 1) = -32768.
Proof. reflexivity. Qed.

(** The monitor refuses a round that starts with station 2, a station
    started while a valve is open, a valve of another station, a sleep
    before station 3 and a sleep that is too short. *)
Example monitor_refuses_wrong_order :
  monitor (Startup, 0) [EvPlantState ptr_plant2] = None.
Proof. reflexivity. Qed.

Example monitor_refuses_open_valve_at_start :
  monitor (Startup, 0)
          [EvPlantState ptr_plant1; EvP2OUT 1; EvPlantState ptr_plant2] = None.
Proof. reflexivity. Qed.

Example monitor_refuses_foreign_valve :
  monitor (Startup, 0) [EvPlantState ptr_plant1; EvP2OUT 2] = None.
Proof. reflexivity. Qed.

Example monitor_refuses_early_sleep :
  monitor (Startup, 0)
          [EvPlantState ptr_plant1; EvPlantState ptr_plant2; EvHdelay 48]
  = None.
Proof. reflexivity. Qed.

Example monitor_refuses_short_sleep :
  monitor (Station ptr_plant3, 0)
          (EvHdelay 48 :: repeat (EvDelay 3600) 47 ++ [EvPlantState ptr_plant1])
  = None.
Proof. vm_compute. reflexivity. Qed.

(** * The claims *)

Lemma int16_small (z : Z) : -32768 <= z < 32768 -> int16 z = z.
Proof. intros H. unfold int16. rewrite Z.mod_small; lia. Qed.

(** C1: the calibration loop of preWaterPlant continues exactly while
    moisture < MOISTURE_MAX or counter < MAX_TRAVEL.  Whatever the soil
    delivers, when either disjunct holds the loop has not left (a spent
    budget finds the run in the loop) and its body runs once more: one second
    passes, the ADC is sampled once and that sample is the new moisture, the
    counter goes up by one (in the 16 bits of [int]).  When both fail the loop
    leaves at once with the values it has; and whenever it leaves, both
    moisture >= MOISTURE_MAX and counter >= MAX_TRAVEL hold. *)
Theorem calibration_continues_while_dry_or_short
        (ADC10MEM : nat -> Z) (fuel : nat) (m c : Z) (w : world) :
  (m < MOISTURE_MAX \/ c < MAX_TRAVEL ->
   calibration ADC10MEM O m c w = Spin InCalibration w /\
   calibration ADC10MEM (S fuel) m c w =
     calibration ADC10MEM fuel (ADC10MEM (conversions w)) (int16 (c + 1))
                 (snd (calibration_body ADC10MEM c w)) /\
   fst (calibration_body ADC10MEM c w) =
     (ADC10MEM (conversions w), int16 (c + 1)) /\
   (-32768 <= c < 32767 -> int16 (c + 1) = c + 1) /\
   seconds (snd (calibration_body ADC10MEM c w)) = seconds w + 1 /\
   conversions (snd (calibration_body ADC10MEM c w)) = S (conversions w)) /\
  (MOISTURE_MAX <= m -> MAX_TRAVEL <= c ->
   calibration ADC10MEM fuel m c w = Done (m, c) w) /\
  (forall (m' c' : Z) (w' : world),
      calibration ADC10MEM fuel m c w = Done (m', c') w' ->
      MOISTURE_MAX <= m' /\ MAX_TRAVEL <= c').
Proof.
  split; [|split].
  - intros H. split.
    { cbn [calibration]. now rewrite (continue_true m c H). }
    split; [now apply calibration_again|].
    rewrite calibration_body_eq. cbn [fst snd seconds conversions].
    repeat split. intros Hc. apply int16_small. lia.
  - apply calibration_exit.
  - intros m' c' w'. apply calibration_done.
Qed.

(** At the fifth step of scenario A the soil is wet and the counter is 4: the
    loop goes round once more; with the counter at 5 it leaves. *)
Lemma calibration_continues_while_dry_or_short_witness :
  calibration soil_scenario_A 1 600 4 (startup 0 0) =
    calibration soil_scenario_A 0 150 5
                (snd (calibration_body soil_scenario_A 4 (startup 0 0))) /\
  calibration soil_scenario_A 0 600 5 (startup 0 0) =
    Done (600, 5) (startup 0 0).
Proof.
  split.
  - destruct (calibration_continues_while_dry_or_short
                soil_scenario_A 0 600 4 (startup 0 0)) as (H & _).
    destruct H as (_ & H & _); [right; reflexivity|]. exact H.
  - destruct (calibration_continues_while_dry_or_short
                soil_scenario_A 0 600 5 (startup 0 0)) as (_ & H & _).
    apply H; discriminate.
Defined.

Lemma extends_In (Q : event -> Prop) (w w' : world) (e : event) :
  extends Q w w' -> In e (trace w) -> In e (trace w').
Proof. intros (tr & E & _) H. rewrite E. apply in_or_app. now left. Qed.

Lemma no_store_In (tr : list event) (p : ptr) (v : Z) :
  Forall no_store tr -> ~ In (EvTravelTime p v) tr.
Proof.
  intros F H. rewrite Forall_forall in F. exact (F _ H).
Qed.

Lemma calibration_more_fuel (ADC10MEM : nat -> Z) (f : nat) :
  forall (m c : Z) (w : world) (r : Z * Z) (w' : world),
    calibration ADC10MEM f m c w = Done r w' ->
    forall k : nat, calibration ADC10MEM (f + k) m c w = Done r w'.
Proof.
  induction f as [|f IH]; intros m c w r w' E k.
  - cbn [calibration] in E.
    destruct ((m <? MOISTURE_MAX) || (c <? MAX_TRAVEL)) eqn:C;
      [discriminate|].
    destruct k; cbn [Nat.add calibration]; now rewrite C.
  - cbn [Nat.add calibration] in *.
    destruct ((m <? MOISTURE_MAX) || (c <? MAX_TRAVEL)) eqn:C; [|exact E].
    destruct (calibration_body ADC10MEM c w) as [[m1 c1] w1].
    now apply IH.
Qed.

Lemma preWaterPlant_enters_alarm
      (ADC10MEM : nat -> Z) (f k : nat) (p : ptr) (w : world)
      (r : Z * Z) (w1 : world) :
  calibration ADC10MEM f (ADC10MEM (conversions w)) 0
    (delay 1 (set_P2OUT (Z.lor (P2OUT w) (activateSolenoid (deref p w)))
                (snd (checkMoisture ADC10MEM (log (EvPreWaterPlant p) w)))))
  = Done r w1 ->
  preWaterPlant ADC10MEM (f + k) p w = Spin InAlarm (alarm (f + k) w1).
Proof.
  intros E. unfold preWaterPlant.
  unfold checkMoisture in *. rewrite delay_eq in *.
  wsimpl. wsimpl_in E. fold_deref p w.
  rewrite (calibration_more_fuel ADC10MEM f _ _ _ _ _ E k).
  destruct r as [m' c'].
  destruct (calibration_done ADC10MEM _ _ _ _ _ _ _ E) as (_ & Hc).
  apply Z.geb_le in Hc. now rewrite Hc.
Qed.

(** C9: when the calibration loop leaves, counter >= MAX_TRAVEL holds; so
    every exit of the loop takes the alarm branch, and preWaterPlant never
    returns: a budgeted run of it is found in its loop or in the alarm, with
    the station's struct as it was.  The code behind the alarm that stores
    the counter is never reached: in every run of main, from any state of
    the output ports at reset, the three travelTime fields are 0 and the
    trace has no store to one. *)
Theorem travelTime_is_never_stored
        (ADC10MEM : nat -> Z) (fuel : nat) (p1 p2 : Z) :
  (forall (f : nat) (m c : Z) (w : world),
      match calibration ADC10MEM f m c w with
      | Done (_, c') _ => MAX_TRAVEL <= c'
      | Spin l _ => l = InCalibration
      end) /\
  (forall (f : nat) (p : ptr) (w : world) (r : Z * Z) (w1 : world),
      calibration ADC10MEM f (ADC10MEM (conversions w)) 0
        (delay 1
           (set_P2OUT (Z.lor (P2OUT w) (activateSolenoid (deref p w)))
              (snd (checkMoisture ADC10MEM (log (EvPreWaterPlant p) w)))))
      = Done r w1 ->
      preWaterPlant ADC10MEM f p w = Spin InAlarm (alarm f w1)) /\
  (forall (f : nat) (p : ptr) (w : world),
      exists (l : loop) (w' : world),
        preWaterPlant ADC10MEM f p w = Spin l w' /\
        (l = InCalibration \/ l = InAlarm) /\
        deref p w' = deref p w) /\
  (let w' := snd (main ADC10MEM fuel p1 p2) in
   travelTime (plant1 w') = 0 /\ travelTime (plant2 w') = 0 /\
   travelTime (plant3 w') = 0 /\
   forall (p : ptr) (v : Z), ~ In (EvTravelTime p v) (trace w')).
Proof.
  split; [|split; [|split]].
  - intros f m c w. pose proof (calibration_spec ADC10MEM f m c w) as S.
    cbn zeta in S.
    destruct (calibration ADC10MEM f m c w) as [[m' c'] w'|l w']; tauto.
  - intros f p w r w1 E.
    pose proof (preWaterPlant_enters_alarm ADC10MEM f 0 p w r w1 E) as H.
    now rewrite Nat.add_0_r in H.
  - intros f p w.
    destruct (preWaterPlant_spec ADC10MEM f p w) as (l & w' & E & Hp & _ & Hl).
    exists l, w'. split; [exact E|]. split.
    + destruct Hl as [(-> & _)|(-> & _)]; auto.
    + apply same_plants_deref, Hp.
  - destruct (main_inv ADC10MEM fuel p1 p2) as ((A & B & C) & F & _).
    cbn zeta. rewrite A, B, C. repeat split.
    intros p v. now apply no_store_In.
Qed.

(** Scenario A: the loop leaves with the counter at 5 and the alarm is
    entered. *)
Lemma travelTime_is_never_stored_witness :
  exists w1 : world,
    preWaterPlant soil_scenario_A 5 ptr_plant1 (startup 0 0) =
      Spin InAlarm (alarm 5 w1) /\
    travelTime (plant1 w1) = 0.
Proof.
  destruct (travelTime_is_never_stored soil_scenario_A 5 0 0) as (_ & H & _).
  eexists. split.
  - apply (H 5%nat ptr_plant1 (startup 0 0) (600, 5)).
    vm_compute. reflexivity.
  - reflexivity.
Defined.

(** C10: when a budgeted run of preWaterPlant is found in the alarm, the
    machine entered the alarm with the station's valve bits and P2.3 set in
    P2OUT; every write to P2OUT since the entry of preWaterPlant has the
    station's bits set; and after any number of rounds of the alarm P2OUT is
    as at its entry, the rounds having left only the two writes to P1OUT and
    the two one-second waits each. *)
Theorem alarm_leaves_the_valves_open
        (ADC10MEM : nat -> Z) (fuel : nat) (p : ptr) (w w' : world) :
  preWaterPlant ADC10MEM fuel p w = Spin InAlarm w' ->
  let sol := uint8 (activateSolenoid (deref p w)) in
  exists (w1 : world) (tr : list event),
    w' = alarm fuel w1 /\
    trace w1 = trace w ++ EvPreWaterPlant p :: tr /\
    (forall v : Z, In (EvP2OUT v) tr -> Z.land v sol = sol) /\
    forall n : nat,
      P2OUT (alarm n w1) = P2OUT w1 /\
      Z.land (P2OUT (alarm n w1)) sol = sol /\
      Z.testbit (P2OUT (alarm n w1)) 3 = true /\
      trace (alarm n w1) =
        trace w1 ++ concat (repeat (alarm_round (P1OUT w1)) n).
Proof.
  intros E sol.
  destruct (preWaterPlant_spec ADC10MEM fuel p w) as (l & w2 & E' & _ & _ & Hl).
  rewrite E in E'. injection E' as <- <-.
  destruct Hl as [(Hl & _)|(_ & w1 & -> & Hv & _ & (tr & Et & Ft))];
    [discriminate|].
  set (x1 := uint8 (Z.lor (P2OUT w) (activateSolenoid (deref p w)))) in *.
  set (x2 := uint8 (Z.lor x1 BIT3)) in *.
  assert (K1 : Z.land x1 sol = sol) by apply uint8_lor_keeps.
  assert (K2 : Z.land x2 sol = sol).
  { subst x2 sol. rewrite <- (uint8_idem (activateSolenoid _)).
    apply uint8_lor_mono. exact K1. }
  assert (K3 : Z.testbit x2 3 = true).
  { subst x2. unfold uint8. rewrite Z.land_spec, Z.lor_spec.
    change (Z.testbit BIT3 3) with true. now rewrite orb_true_r. }
  exists w1, tr. split; [reflexivity|].
  split; [rewrite Et; cbn [log trace]; now rewrite <- app_assoc|].
  split.
  { intros v Hin. rewrite Forall_forall in Ft.
    destruct (Ft _ Hin) as [H|[H|[H|[H|[[m H]|[u H]]]]]];
      try discriminate; injection H as ->; assumption. }
  intros n. destruct (alarm_spec n w1) as (A & _ & _ & _ & T).
  rewrite A, Hv. repeat split; assumption.
Qed.

(** Scenario A runs into the alarm with P2OUT at 9: the valve of station 1
    and the shared line. *)
Lemma alarm_leaves_the_valves_open_witness :
  exists w1 : world,
    world_of (preWaterPlant soil_scenario_A 5 ptr_plant1 (startup 0 0)) =
      alarm 5 w1 /\
    P2OUT (alarm 100 w1) = P2OUT w1 /\
    Z.testbit (P2OUT (alarm 100 w1)) 3 = true.
Proof.
  destruct (alarm_leaves_the_valves_open
              soil_scenario_A 5 ptr_plant1 (startup 0 0)
              (world_of (preWaterPlant soil_scenario_A 5 ptr_plant1
                                       (startup 0 0))))
    as (w1 & tr & E & _ & _ & H).
  { vm_compute. reflexivity. }
  exists w1. destruct (H 100%nat) as (H1 & _ & H3 & _).
  split; [exact E|]. split; [exact H1 | exact H3].
Defined.

(** ** Valves *)

Lemma valves_range (v : Z) : 0 <= valves v < 16.
Proof.
  unfold valves. change 0x0F with (Z.ones 4).
  rewrite Z.land_ones by lia. apply Z.mod_pos_bound. reflexivity.
Qed.

Lemma open_count_valves (v : Z) :
  station_valves_open v = station_valves_open (valves v).
Proof.
  unfold station_valves_open, open_count. cbn [filter].
  rewrite <- !testbit_valves by lia. reflexivity.
Qed.

Lemma nibble_cases (x : Z) :
  0 <= x < 16 ->
  x = 0 \/ x = 1 \/ x = 2 \/ x = 3 \/ x = 4 \/ x = 5 \/ x = 6 \/ x = 7 \/
  x = 8 \/ x = 9 \/ x = 10 \/ x = 11 \/ x = 12 \/ x = 13 \/ x = 14 \/ x = 15.
Proof. lia. Qed.

(** What the schedule lets a station drive leaves at most its own valve
    open among the station valves. *)
Lemma allowed_valves (p : ptr) (v : Z) :
  Z.land (valves v) (Z.lnot (Z.lor (solenoid p) BIT3)) = 0 ->
  (station_valves_open v <= 1)%nat.
Proof.
  rewrite open_count_valves.
  destruct (nibble_cases _ (valves_range v))
    as [->|[->|[->|[->|[->|[->|[->|[->|[->|[->|[->|[->|[->|[->|[->| ->]]]]]]]]]]]]]]];
    destruct p; intros H; vm_compute in H;
    first [discriminate H | vm_compute; lia].
Qed.

Lemma closed_valves (v : Z) :
  valves v = 0 -> (station_valves_open v <= 1)%nat.
Proof.
  intros H. rewrite open_count_valves, H. vm_compute. lia.
Qed.

Lemma monitor_P2OUT (tr : list event) :
  forall (st st' : phase * Z) (v : Z),
    monitor st tr = Some st' -> In (EvP2OUT v) tr ->
    (station_valves_open v <= 1)%nat.
Proof.
  induction tr as [|e tr IH]; intros st st' v Hm Hin; [destruct Hin|].
  cbn [monitor] in Hm.
  destruct (mstep st e) as [st1|] eqn:E; [|discriminate].
  destruct Hin as [->|Hin]; [|eapply IH; eassumption].
  destruct st as [ph o]. cbn [mstep] in E.
  destruct ph as [|p|n].
  - destruct (valves v =? 0) eqn:V; [|discriminate].
    apply closed_valves. now apply Z.eqb_eq.
  - destruct (Z.land (valves v) (Z.lnot (Z.lor (solenoid p) BIT3)) =? 0) eqn:V;
      [|discriminate].
    apply (allowed_valves p). now apply Z.eqb_eq.
  - destruct (valves v =? 0) eqn:V; [|discriminate].
    apply closed_valves. now apply Z.eqb_eq.
Qed.

(** C7, against the claim: in the first dose of a run on wet soil P2OUT is
    written with 9, the valve of station 1 and the shared line open
    together. *)
Lemma shared_line_opens_with_a_station_valve :
  ~ (forall v : Z,
        In (EvP2OUT v) (trace (snd (main soil_wet 1 0 0))) ->
        (valves_open v <= 1)%nat).
Proof.
  intros H. specialize (H 9).
  assert (Hin : In (EvP2OUT 9) (trace (snd (main soil_wet 1 0 0)))).
  { vm_compute. do 9 right. left. reflexivity. }
  apply H in Hin. vm_compute in Hin. lia.
Qed.

(** C7, amended: in every run of main, from any state of the output ports at
    reset and on any soil, every value written to P2OUT has at most one of
    the three station valves P2.0-P2.2 open; the shared line P2.3 may be
    open with it. *)
Theorem at_most_one_station_valve_open
        (ADC10MEM : nat -> Z) (fuel : nat) (p1 p2 : Z) (v : Z) :
  In (EvP2OUT v) (trace (snd (main ADC10MEM fuel p1 p2))) ->
  (station_valves_open v <= 1)%nat.
Proof.
  destruct (main_inv ADC10MEM fuel p1 p2) as (_ & _ & st' & Hm).
  intros Hin. eapply monitor_P2OUT; eassumption.
Qed.

Lemma at_most_one_station_valve_open_witness :
  In (EvP2OUT 9) (trace (snd (main soil_wet 1 0 0))) /\
  (station_valves_open 9 <= 1)%nat.
Proof.
  assert (Hin : In (EvP2OUT 9) (trace (snd (main soil_wet 1 0 0)))).
  { vm_compute. do 9 right. left. reflexivity. }
  split; [exact Hin|].
  exact (at_most_one_station_valve_open soil_wet 1 0 0 9 Hin).
Defined.

(** ** The round *)

Lemma plantState_wet_closed
      (ADC10MEM : nat -> Z) (fuel : nat) (p : ptr) (w : world) :
  plants_init w -> valves (P2OUT w) = 0 ->
  MOISTURE_MIN <= ADC10MEM (conversions w) ->
  exists w' : world,
    plantState ADC10MEM fuel p w = Done tt w' /\
    plants_init w' /\ valves (P2OUT w') = 0 /\
    conversions w' = S (conversions w) /\
    seconds w' = seconds w + 6 /\
    trace w' =
      trace w ++ wet_events p (P1OUT w) (P2OUT w) (deref p w)
                            (ADC10MEM (conversions w)).
Proof.
  intros Hi Hv Hw.
  destruct (plantState_wet ADC10MEM fuel p w Hw)
    as (w' & E & Hp & H2 & Hc & Hs & Ht).
  exists w'. split; [exact E|].
  split; [eapply plants_init_same; eassumption|].
  split.
  { rewrite H2. unfold dose_end. rewrite (plants_init_solenoid p w Hi).
    now destruct (dose_valves (P2OUT w) (solenoid p) Hv (solenoid_cases p))
      as (_ & _ & _ & V4). }
  split; [exact Hc|]. split; [|exact Ht].
  rewrite Hs, (plants_init_travelTime p w Hi).
  change (Z.max 0 (int16 (0 + SOAK_TIME))) with 3. lia.
Qed.

(** ** Doses *)

Lemma dose_shared_line (p2 sol : Z) :
  valves p2 = 0 -> sol = BIT0 \/ sol = BIT1 \/ sol = BIT2 ->
  let x1 := uint8 (Z.lor p2 sol) in
  let x2 := uint8 (Z.lor x1 BIT3) in
  let x3 := uint8 (Z.land x2 (Z.lnot BIT3)) in
  Z.testbit x1 3 = false /\ Z.testbit x2 3 = true /\ Z.testbit x3 3 = false.
Proof.
  intros H0 Hs x1 x2 x3.
  destruct (dose_valves p2 sol H0 Hs) as (V1 & V2 & V3 & _).
  fold x1 x2 x3 in V1, V2, V3.
  rewrite (testbit_valves x1), (testbit_valves x2), (testbit_valves x3) by lia.
  rewrite V1, V2, V3.
  destruct Hs as [->|[->| ->]]; repeat split; reflexivity.
Qed.

(** The shared line is open for the wait of [waterTime] seconds and for it
    only. *)
Lemma dose_seconds (p : ptr) (p2 : Z) (q : plantProperty) :
  valves p2 = 0 ->
  activateSolenoid q = BIT0 \/ activateSolenoid q = BIT1 \/
  activateSolenoid q = BIT2 ->
  shared_open_seconds p2 (dose_events p p2 q) =
  Z.max 0 (int16 (travelTime q + SOAK_TIME)).
Proof.
  intros H0 Hs.
  destruct (dose_shared_line p2 _ H0 Hs) as (T1 & T2 & T3).
  unfold dose_events. cbn [shared_open_seconds].
  rewrite T1, T2, T3. lia.
Qed.

Lemma doses_of_a_dose (p : ptr) (p2 : Z) (q : plantProperty)
      (tail : list event) :
  valves p2 = 0 ->
  activateSolenoid q = BIT0 \/ activateSolenoid q = BIT1 \/
  activateSolenoid q = BIT2 ->
  Forall (fun e => exists v, e = EvP1OUT v) tail ->
  doses p2 None (dose_events p p2 q ++ tail) =
  [(p, Z.max 0 (int16 (travelTime q + SOAK_TIME)))].
Proof.
  intros H0 Hs Ft.
  destruct (dose_shared_line p2 _ H0 Hs) as (T1 & T2 & T3).
  unfold dose_events. cbn [app doses].
  rewrite T1, T2, T3.
  match goal with
  | |- doses ?x (Some (p, ?t)) tail = _ =>
      generalize x; replace t with (Z.max 0 (int16 (travelTime q + SOAK_TIME)))
        by lia
  end.
  induction Ft as [|e tail [v ->] _ IH]; intros x; cbn [doses];
    [reflexivity | apply IH].
Qed.

Lemma plantState_done_is_wet
      (ADC10MEM : nat -> Z) (fuel : nat) (p : ptr) (w w' : world) :
  plantState ADC10MEM fuel p w = Done tt w' ->
  MOISTURE_MIN <= ADC10MEM (conversions w).
Proof.
  intros E.
  destruct (Z.lt_ge_cases (ADC10MEM (conversions w)) MOISTURE_MIN) as [Hd|Hw];
    [|exact Hw].
  destruct (plantState_dry ADC10MEM fuel p w Hd) as (l & w1 & rest & E' & _).
  rewrite E in E'. discriminate.
Qed.

(** C4, against the claim: on the first round, with station 1 read at 400
    and its travelTime still 0, the dose at the end of its processing holds
    the shared line open for 3 seconds, not 0. *)
Lemma first_dose_of_a_wet_station_is_not_empty :
  let w := startup 0 0 in
  let w' := world_of (plantState soil_wet 0 ptr_plant1 w) in
  shared_open_seconds (P2OUT w) (skipn (length (trace w)) (trace w'))
  <> travelTime (deref ptr_plant1 w).
Proof. vm_compute. discriminate. Qed.

(** C4, amended: whenever the processing of a station returns, its trace
    ends with a dose (and the write that switches the sensor off) that is
    sized from the station's current travelTime with SOAK_TIME added: the
    shared line is open for travelTime + SOAK_TIME seconds; for a station
    that was never calibrated (travelTime 0) this is a dose of 3 seconds.
    The station's solenoid is one of P2.0-P2.2 as main wires it, the valves
    are closed when the processing starts, and travelTime + SOAK_TIME fits
    an [int]. *)
Theorem final_dose_is_travelTime_plus_soak
        (ADC10MEM : nat -> Z) (fuel : nat) (p : ptr) (w w' : world) :
  wired w -> valves (P2OUT w) = 0 ->
  0 <= travelTime (deref p w) <= 32764 ->
  plantState ADC10MEM fuel p w = Done tt w' ->
  (exists (before : list event) (v : Z),
      trace w' =
        trace w ++ before ++ dose_events p (P2OUT w) (deref p w)
                ++ [EvP1OUT v]) /\
  shared_open_seconds (P2OUT w) (dose_events p (P2OUT w) (deref p w)) =
    travelTime (deref p w) + SOAK_TIME /\
  (travelTime (deref p w) = 0 ->
   shared_open_seconds (P2OUT w) (dose_events p (P2OUT w) (deref p w)) = 3) /\
  deref p w' = deref p w.
Proof.
  intros Hw Hv Ht E.
  pose proof (plantState_done_is_wet _ _ _ _ _ E) as Hwet.
  destruct (plantState_wet ADC10MEM fuel p w Hwet)
    as (w1 & E1 & Hp & _ & _ & _ & Htr).
  rewrite E in E1. injection E1 as <-.
  assert (S : shared_open_seconds (P2OUT w) (dose_events p (P2OUT w) (deref p w))
              = travelTime (deref p w) + SOAK_TIME).
  { rewrite dose_seconds by (auto using wired_deref).
    rewrite int16_small by (unfold SOAK_TIME; lia). unfold SOAK_TIME. lia. }
  split; [|split; [exact S|split]].
  - eexists _, _. rewrite Htr. unfold wet_events. reflexivity.
  - intros H0. rewrite S, H0. reflexivity.
  - apply same_plants_deref, Hp.
Qed.

Lemma final_dose_is_travelTime_plus_soak_witness :
  shared_open_seconds
    (P2OUT (startup 0 0))
    (dose_events ptr_plant1 (P2OUT (startup 0 0))
                 (deref ptr_plant1 (startup 0 0))) = 0 + SOAK_TIME.
Proof.
  refine (proj1 (proj2
    (final_dose_is_travelTime_plus_soak
       soil_wet 0 ptr_plant1 (startup 0 0)
       (world_of (plantState soil_wet 0 ptr_plant1 (startup 0 0)))
       _ _ _ _))).
  - repeat split.
  - reflexivity.
  - split; discriminate.
  - vm_compute. reflexivity.
Defined.

(** C6, against the claim: on the first round, with station 1 read at 400,
    the one dose of its processing is not a dose at its travelTime of 0: the
    shared line is open for 3 seconds. *)
Lemma wet_station_dose_is_not_at_travelTime :
  let w := startup 0 0 in
  let w' := world_of (plantState soil_wet 0 ptr_plant1 w) in
  doses (P2OUT w) None (skipn (length (trace w)) (trace w'))
  <> [(ptr_plant1, travelTime (deref ptr_plant1 w))].
Proof. vm_compute. discriminate. Qed.

(** C6, amended: for every station whose sample in the sequencer is at or
    above MOISTURE_MIN, the processing returns; preWaterPlant is not
    entered; waterPlant is entered exactly once, and that one dose holds the
    shared line open for the station's travelTime as it was before, plus
    SOAK_TIME (3 seconds on the first run); the struct is left as it was.
    The station's solenoid is one of P2.0-P2.2 as main wires it, the valves
    are closed when the processing starts, and travelTime + SOAK_TIME fits
    an [int]. *)
Theorem wet_station_gets_one_dose
        (ADC10MEM : nat -> Z) (fuel : nat) (p : ptr) (w : world) :
  wired w -> valves (P2OUT w) = 0 ->
  0 <= travelTime (deref p w) <= 32764 ->
  MOISTURE_MIN <= ADC10MEM (conversions w) ->
  exists (w' : world) (tr : list event),
    plantState ADC10MEM fuel p w = Done tt w' /\
    trace w' = trace w ++ tr /\
    filter is_calibration tr = [] /\
    filter is_dose tr = [EvWaterPlant p] /\
    doses (P2OUT w) None tr = [(p, travelTime (deref p w) + SOAK_TIME)] /\
    deref p w' = deref p w.
Proof.
  intros Hw Hv Ht Hwet.
  destruct (plantState_wet ADC10MEM fuel p w Hwet)
    as (w' & E & Hp & _ & _ & _ & Htr).
  exists w', (wet_events p (P1OUT w) (P2OUT w) (deref p w)
                         (ADC10MEM (conversions w))).
  split; [exact E|]. split; [exact Htr|].
  split; [reflexivity|]. split; [reflexivity|].
  split; [|apply same_plants_deref, Hp].
  unfold wet_events, sense_events. cbn [app doses].
  rewrite doses_of_a_dose; auto using wired_deref.
  - rewrite int16_small by (unfold SOAK_TIME; lia).
    f_equal. f_equal. unfold SOAK_TIME. lia.
  - apply Forall_cons; [eexists; reflexivity | constructor].
Qed.

Lemma wet_station_gets_one_dose_witness :
  exists (w' : world) (tr : list event),
    plantState soil_wet 0 ptr_plant1 (startup 0 0) = Done tt w' /\
    trace w' = trace (startup 0 0) ++ tr /\
    doses (P2OUT (startup 0 0)) None tr = [(ptr_plant1, 0 + SOAK_TIME)].
Proof.
  destruct (wet_station_gets_one_dose soil_wet 0 ptr_plant1 (startup 0 0))
    as (w' & tr & E & T & _ & _ & D & _).
  - repeat split.
  - reflexivity.
  - split; discriminate.
  - discriminate.
  - exists w', tr. repeat split; assumption.
Defined.

(** ** Dry stations *)

Lemma filter_none {A} (f : A -> bool) (l : list A) :
  Forall (fun x => f x = false) l -> filter f l = [].
Proof.
  induction 1 as [|x l Hx _ IH]; cbn [filter]; [reflexivity|].
  now rewrite Hx.
Qed.

Lemma pre_event_not_dose (p : ptr) (x1 x2 : Z) (e : event) :
  pre_event p x1 x2 e -> is_dose e = false /\ e <> EvDelay 60.
Proof.
  intros [->|[->|[->|[->|[[m ->]|[v ->]]]]]]; split;
    solve [reflexivity | discriminate].
Qed.

(** C5, on the code: a station sampled below MOISTURE_MIN is calibrated
    and nothing more.  Whatever the budget, the processing is found in the
    calibration loop or in the alarm; preWaterPlant was entered; neither the
    wait of 60 seconds nor any dose has happened. *)
Theorem dry_station_is_calibrated_and_never_dosed
        (ADC10MEM : nat -> Z) (fuel : nat) (p : ptr) (w : world) :
  ADC10MEM (conversions w) < MOISTURE_MIN ->
  exists (l : loop) (w' : world) (tr : list event),
    plantState ADC10MEM fuel p w = Spin l w' /\
    (l = InCalibration \/ l = InAlarm) /\
    trace w' = trace w ++ tr /\
    In (EvPreWaterPlant p) tr /\
    ~ In (EvDelay 60) tr /\
    filter is_dose tr = [].
Proof.
  intros Hd.
  destruct (plantState_dry ADC10MEM fuel p w Hd)
    as (l & w' & rest & E & _ & Ht & Hf & Hl).
  exists l, w', (sense_events p (P1OUT w) (deref p w)
                              (ADC10MEM (conversions w))
                 ++ EvPreWaterPlant p :: rest).
  split; [exact E|].
  split; [destruct Hl as [(-> & _)|(-> & _)]; auto|].
  split; [exact Ht|].
  split; [apply in_or_app; right; now left|].
  assert (Hr : Forall (fun e => is_dose e = false /\ e <> EvDelay 60) rest).
  { eapply Forall_impl; [|exact Hf]. apply pre_event_not_dose. }
  split.
  - intros Hin. apply in_app_or in Hin. destruct Hin as [Hin|[Hin|Hin]].
    + cbn in Hin. intuition discriminate.
    + discriminate.
    + rewrite Forall_forall in Hr. now destruct (Hr _ Hin).
  - rewrite filter_app. cbn [sense_events filter is_dose app].
    apply filter_none. eapply Forall_impl; [|exact Hr]. now intros e [].
Qed.

Lemma dry_station_is_calibrated_and_never_dosed_witness :
  exists (l : loop) (w' : world) (tr : list event),
    plantState soil_scenario_A 9 ptr_plant1 (startup 0 0) = Spin l w' /\
    trace w' = trace (startup 0 0) ++ tr /\
    ~ In (EvDelay 60) tr /\
    filter is_dose tr = [].
Proof.
  destruct (dry_station_is_calibrated_and_never_dosed
              soil_scenario_A 9 ptr_plant1 (startup 0 0))
    as (l & w' & tr & E & _ & T & _ & N & D).
  - reflexivity.
  - exists l, w', tr. repeat split; assumption.
Defined.

(** What the processing of a dry station cannot leave in the trace. *)
Lemma plantState_dry_frame
      (ADC10MEM : nat -> Z) (fuel : nat) (p : ptr) (w : world) :
  ADC10MEM (conversions w) < MOISTURE_MIN ->
  exists (l : loop) (w' : world),
    plantState ADC10MEM fuel p w = Spin l w' /\
    same_plants w w' /\
    extends (fun e => no_store e /\ is_dose e = false) w w'.
Proof.
  intros Hd.
  destruct (plantState_dry ADC10MEM fuel p w Hd)
    as (l & w' & rest & E & Hp & Ht & Hf & _).
  exists l, w'. split; [exact E|]. split; [exact Hp|].
  eexists. split; [exact Ht|].
  apply Forall_app. split.
  - unfold sense_events. repeat (apply Forall_cons; [now split|]).
    constructor.
  - apply Forall_cons; [now split|].
    eapply Forall_impl; [|exact Hf]. intros e He. split.
    + eapply pre_event_no_store; eassumption.
    + eapply pre_event_not_dose; eassumption.
Qed.

(** C2, on the code: in scenario A the calibration does not return with a
    travelTime of 3.  With any budget of 5 rounds or more, the processing of
    station 1 is found in the alarm, entered after 5 rounds of the loop (7
    conversions in all) with the valve of station 1 and the shared line
    open; travelTime is still 0 and was never written, and no dose has been
    given. *)
Theorem scenario_A_ends_in_the_alarm (k : nat) :
  exists w1 w' : world,
    plantState soil_scenario_A (5 + k) ptr_plant1 (startup 0 0) =
      Spin InAlarm w' /\
    w' = alarm (5 + k) w1 /\
    conversions w1 = 7%nat /\ P2OUT w1 = 9 /\
    travelTime (plant1 w') = 0 /\
    (forall v : Z, ~ In (EvTravelTime ptr_plant1 v) (trace w')) /\
    filter is_dose (trace w') = [].
Proof.
  pose proof (plantState_eq soil_scenario_A (5 + k) ptr_plant1 (startup 0 0))
    as E.
  cbn zeta in E.
  change (soil_scenario_A (conversions (startup 0 0)) <? MOISTURE_MIN)
    with true in E.
  cbv iota in E.
  erewrite (preWaterPlant_enters_alarm soil_scenario_A 5 k) in E;
    [|vm_compute; reflexivity].
  destruct (plantState_dry_frame soil_scenario_A (5 + k) ptr_plant1
                                 (startup 0 0) eq_refl)
    as (l & w' & E' & Hp & tr & Ht & Hf).
  rewrite E' in E.
  match type of E with
  | _ = Spin _ (alarm _ ?w) =>
      exists w, w';
      assert (El : l = InAlarm) by congruence;
      assert (Ew : w' = alarm (5 + k) w) by congruence
  end.
  subst l.
  split; [exact E'|]. split; [exact Ew|].
  split; [reflexivity|]. split; [reflexivity|].
  split; [destruct Hp as (Hp1 & _); exact (f_equal travelTime Hp1)|].
  rewrite Ht. split.
  - intros v Hin. apply in_app_or in Hin. destruct Hin as [Hin|Hin].
    + cbn in Hin. intuition discriminate.
    + rewrite Forall_forall in Hf. now destruct (Hf _ Hin).
  - rewrite filter_app, startup_trace.
    cbn [filter is_dose app]. apply filter_none.
    eapply Forall_impl; [|exact Hf]. now intros e [].
Qed.

(** ** Soil that stays dry *)

Lemma calibration_never_leaves_dry_soil (ADC10MEM : nat -> Z) :
  (forall n : nat, ADC10MEM n < MOISTURE_MAX) ->
  forall (fuel : nat) (m c : Z) (w : world),
    m < MOISTURE_MAX ->
    exists w' : world,
      calibration ADC10MEM fuel m c w = Spin InCalibration w'.
Proof.
  intros Hdry. induction fuel as [|fuel IH]; intros m c w Hm.
  - exists w. cbn [calibration].
    now rewrite (continue_true m c (or_introl Hm)).
  - rewrite (calibration_again ADC10MEM fuel m c w (or_introl Hm)).
    apply IH, Hdry.
Qed.

Lemma preWaterPlant_on_dry_soil
      (ADC10MEM : nat -> Z) (fuel : nat) (p : ptr) (w : world) :
  (forall n : nat, ADC10MEM n < MOISTURE_MAX) ->
  let x1 := uint8 (Z.lor (P2OUT w) (activateSolenoid (deref p w))) in
  exists w' : world,
    preWaterPlant ADC10MEM fuel p w = Spin InCalibration w' /\
    (P2OUT w' = x1 \/ P2OUT w' = uint8 (Z.lor x1 BIT3)).
Proof.
  intros Hdry x1.
  destruct (preWaterPlant_spec ADC10MEM fuel p w) as (l & w' & E & _ & _ & Hl).
  assert (D : exists w0, preWaterPlant ADC10MEM fuel p w = Spin InCalibration w0).
  { unfold preWaterPlant, checkMoisture. rewrite delay_eq. wsimpl.
    match goal with
    | |- context [calibration _ fuel ?m ?c ?w0] =>
        destruct (calibration_never_leaves_dry_soil
                    ADC10MEM Hdry fuel m c w0 (Hdry _)) as (w1 & ->)
    end.
    now exists w1. }
  destruct D as (w0 & D). rewrite D in E. injection E as <- <-.
  exists w0. split; [exact D|].
  destruct Hl as [(_ & Hv)|(Hl & _)]; [exact Hv | discriminate].
Qed.

Lemma lor_bit_set (v m : Z) (i : Z) :
  Z.testbit m i = true -> Z.testbit 0xFF i = true ->
  Z.testbit (uint8 (Z.lor v m)) i = true.
Proof.
  intros Hm H8. unfold uint8. rewrite Z.land_spec, Z.lor_spec, Hm, H8.
  now rewrite orb_true_r.
Qed.

Lemma lor_bit_kept (v m : Z) (i : Z) :
  Z.testbit v i = true -> Z.testbit 0xFF i = true ->
  Z.testbit (uint8 (Z.lor v m)) i = true.
Proof.
  intros Hv H8. unfold uint8. rewrite Z.land_spec, Z.lor_spec, Hv, H8.
  reflexivity.
Qed.

(** C3, on the code: on soil that never reaches MOISTURE_MAX and is dry at
    the first sample, no budget brings main to the alarm.  The counter
    passes MAX_TRAVEL and the run stays in the calibration loop of station
    1, with the valve of station 1 open. *)
Theorem soil_that_stays_dry_never_raises_the_alarm
        (ADC10MEM : nat -> Z) (fuel : nat) (p1 p2 : Z) :
  (forall n : nat, ADC10MEM n < MOISTURE_MAX) ->
  ADC10MEM O < MOISTURE_MIN ->
  exists w' : world,
    main ADC10MEM (S fuel) p1 p2 = (InCalibration, w') /\
    Z.testbit (P2OUT w') 0 = true.
Proof.
  intros Hdry H0. unfold main. cbn [main_loop]. unfold cycle, bind.
  rewrite plantState_eq. cbn zeta.
  change (conversions (startup p1 p2)) with O.
  apply Z.ltb_lt in H0. rewrite H0.
  match goal with
  | |- context [preWaterPlant _ _ ptr_plant1 ?w0] =>
      destruct (preWaterPlant_on_dry_soil ADC10MEM (S fuel) ptr_plant1 w0 Hdry)
        as (w' & E & Hv)
  end.
  rewrite E. exists w'. split; [reflexivity|].
  cbn [P2OUT deref plant1] in Hv.
  change (activateSolenoid (plant1 (startup p1 p2))) with BIT0 in Hv.
  destruct Hv as [-> | ->].
  - now apply lor_bit_set.
  - apply lor_bit_kept; [|reflexivity]. now apply lor_bit_set.
Qed.

Lemma soil_that_stays_dry_never_raises_the_alarm_witness :
  exists w' : world,
    main soil_dry 1000 0 0 = (InCalibration, w') /\
    Z.testbit (P2OUT w') 0 = true.
Proof.
  apply (soil_that_stays_dry_never_raises_the_alarm soil_dry 999 0 0).
  - intros n. reflexivity.
  - reflexivity.
Defined.

(** * Further properties of the code *)

(** ** The waits *)

(** X1: delay(s) and msdelay(ms) wait for exactly s seconds and ms
    milliseconds when the argument is positive and not at all when it is zero
    or negative; they leave the ports, the ADC10 registers, the structs and
    the count of conversions as they were, and the trace records the one
    call. *)
Theorem waits_pass_their_time_and_nothing_else (n : Z) (w : world) :
  (seconds (delay n w) = seconds w + Z.max 0 n /\
   mseconds (delay n w) = mseconds w /\
   trace (delay n w) = trace w ++ [EvDelay n] /\
   P1OUT (delay n w) = P1OUT w /\ P2OUT (delay n w) = P2OUT w /\
   ADC10CTL0 (delay n w) = ADC10CTL0 w /\
   ADC10CTL1 (delay n w) = ADC10CTL1 w /\
   ADC10AE0 (delay n w) = ADC10AE0 w /\
   conversions (delay n w) = conversions w /\
   same_plants w (delay n w)) /\
  (mseconds (msdelay n w) = mseconds w + Z.max 0 n /\
   seconds (msdelay n w) = seconds w /\
   trace (msdelay n w) = trace w ++ [EvMsdelay n] /\
   P1OUT (msdelay n w) = P1OUT w /\ P2OUT (msdelay n w) = P2OUT w /\
   ADC10CTL0 (msdelay n w) = ADC10CTL0 w /\
   ADC10CTL1 (msdelay n w) = ADC10CTL1 w /\
   ADC10AE0 (msdelay n w) = ADC10AE0 w /\
   conversions (msdelay n w) = conversions w /\
   same_plants w (msdelay n w)).
Proof.
  rewrite delay_eq, msdelay_eq. repeat split.
Qed.

(** X2: hdelay(h) is h calls of delay(3600) when h is positive and none
    otherwise: 3600 * h seconds pass, 172800 for the 48 hours of main, and
    nothing but the clock and the trace changes. *)
Theorem hdelay_passes_its_hours (h : Z) (w : world) :
  seconds (hdelay h w) = seconds w + 3600 * Z.max 0 h /\
  seconds (hdelay 48 w) = seconds w + 172800 /\
  trace (hdelay h w) =
    trace w ++ EvHdelay h :: repeat (EvDelay 3600) (Z.to_nat h) /\
  mseconds (hdelay h w) = mseconds w /\
  P1OUT (hdelay h w) = P1OUT w /\ P2OUT (hdelay h w) = P2OUT w /\
  ADC10CTL0 (hdelay h w) = ADC10CTL0 w /\
  ADC10CTL1 (hdelay h w) = ADC10CTL1 w /\
  ADC10AE0 (hdelay h w) = ADC10AE0 w /\
  conversions (hdelay h w) = conversions w /\
  same_plants w (hdelay h w).
Proof.
  rewrite !hdelay_eq. cbn [seconds trace mseconds P1OUT P2OUT ADC10CTL0
    ADC10CTL1 ADC10AE0 conversions].
  split; [lia|]. split; [lia|]. repeat split.
Qed.

(** ** Masks *)

Lemma uint8_small (v : Z) : 0 <= v < 256 -> uint8 v = v.
Proof.
  intros H. unfold uint8. change 0xFF with (Z.ones 8).
  rewrite Z.land_ones by lia. apply Z.mod_small. exact H.
Qed.

Lemma uint16_small (v : Z) : 0 <= v < 65536 -> uint16 v = v.
Proof.
  intros H. unfold uint16. change 0xFFFF with (Z.ones 16).
  rewrite Z.land_ones by lia. apply Z.mod_small. exact H.
Qed.

Lemma uint8_range (v : Z) : 0 <= uint8 v < 256.
Proof.
  unfold uint8. change 0xFF with (Z.ones 8).
  rewrite Z.land_ones by lia. apply Z.mod_pos_bound. reflexivity.
Qed.

Lemma uint16_range (v : Z) : 0 <= uint16 v < 65536.
Proof.
  unfold uint16. change 0xFFFF with (Z.ones 16).
  rewrite Z.land_ones by lia. apply Z.mod_pos_bound. reflexivity.
Qed.

(** Setting the bits of [m] and clearing them again gives back a register
    that had none of them set. *)
Lemma set_then_clear (v m k : Z) :
  Z.land v k = v -> Z.land v m = 0 ->
  Z.land (Z.land (Z.land (Z.lor v m) k) (Z.lnot m)) k = v.
Proof. intros H1 H2. bits_by H1 H2. Qed.

Lemma set_then_clear_8 (v m : Z) :
  0 <= v < 256 -> Z.land v m = 0 ->
  uint8 (Z.land (uint8 (Z.lor v m)) (Z.lnot m)) = v.
Proof.
  intros Hr H0. apply set_then_clear; [apply (uint8_small v Hr) | exact H0].
Qed.

Lemma set_then_clear_16 (v m : Z) :
  0 <= v < 65536 -> Z.land v m = 0 ->
  uint16 (Z.land (uint16 (Z.lor v m)) (Z.lnot m)) = v.
Proof.
  intros Hr H0. apply set_then_clear; [apply (uint16_small v Hr) | exact H0].
Qed.

Lemma cleared_8 (v m : Z) : Z.land (uint8 (Z.land v (Z.lnot m))) m = 0.
Proof.
  apply Z.bits_inj'; intros n Hn. unfold uint8. bits_step.
  destruct (Z.testbit v n), (Z.testbit m n), (Z.testbit 255 n); reflexivity.
Qed.

Lemma cleared_16 (v m : Z) : Z.land (uint16 (Z.land v (Z.lnot m))) m = 0.
Proof.
  apply Z.bits_inj'; intros n Hn. unfold uint16. bits_step.
  destruct (Z.testbit v n), (Z.testbit m n), (Z.testbit 65535 n); reflexivity.
Qed.

(** ** The sensor supply and the ADC channel *)

Lemma sensor_cycle_eq (p : ptr) (w : world) :
  deinitializeADC p (initializeADC p w) =
  mkWorld
    (uint8 (Z.land (uint8 (Z.lor (P1OUT w) (enableADC (deref p w))))
                   (Z.lnot (enableADC (deref p w)))))
    (P2OUT w)
    (uint16 (Z.land (ADC10CTL0 w) (Z.lnot ENC)))
    (uint16 (Z.land (uint16 (Z.lor (ADC10CTL1 w) (selectADC (deref p w))))
                    (Z.lnot (selectADC (deref p w)))))
    (uint8 (Z.land (uint8 (Z.lor (ADC10AE0 w) (sampleADC (deref p w))))
                   (Z.lnot (sampleADC (deref p w)))))
    (plant1 w) (plant2 w) (plant3 w) (conversions w) (seconds w)
    (mseconds w + 500)
    (trace w ++ [EvP1OUT (uint8 (Z.lor (P1OUT w) (enableADC (deref p w))));
                 EvMsdelay 500;
                 EvP1OUT (sense_off (P1OUT w) (deref p w))]).
Proof.
  unfold deinitializeADC, initializeADC. rewrite msdelay_eq. wsimpl.
  fold_deref p w. rewrite <- !app_assoc. reflexivity.
Qed.

(** X3: deinitializeADC undoes initializeADC.  Whatever the registers held,
    after the pair the station's supply bit in P1OUT, its channel bits in
    ADC10CTL1, its input bit in ADC10AE0 and ENC in ADC10CTL0 are clear; and
    when the station's bits were clear before (and the registers hold what
    their width allows), P1OUT, ADC10CTL1 and ADC10AE0 are exactly as before:
    no other station's supply, channel or input is touched.  The pair costs
    the 500 ms of settling and nothing else. *)
Theorem deinitializeADC_undoes_initializeADC (p : ptr) (w : world) :
  let q := deref p w in
  let w' := deinitializeADC p (initializeADC p w) in
  (Z.land (P1OUT w') (enableADC q) = 0 /\
   Z.land (ADC10CTL1 w') (selectADC q) = 0 /\
   Z.land (ADC10AE0 w') (sampleADC q) = 0 /\
   Z.land (ADC10CTL0 w') ENC = 0 /\
   P2OUT w' = P2OUT w /\ same_plants w w' /\
   conversions w' = conversions w /\ seconds w' = seconds w /\
   mseconds w' = mseconds w + 500) /\
  (0 <= P1OUT w < 256 -> Z.land (P1OUT w) (enableADC q) = 0 ->
   P1OUT w' = P1OUT w) /\
  (0 <= ADC10CTL1 w < 65536 -> Z.land (ADC10CTL1 w) (selectADC q) = 0 ->
   ADC10CTL1 w' = ADC10CTL1 w) /\
  (0 <= ADC10AE0 w < 256 -> Z.land (ADC10AE0 w) (sampleADC q) = 0 ->
   ADC10AE0 w' = ADC10AE0 w).
Proof.
  intros q w'. subst q w'. rewrite sensor_cycle_eq.
  cbn [P1OUT P2OUT ADC10CTL0 ADC10CTL1 ADC10AE0 conversions seconds mseconds].
  split; [|split; [|split]].
  - split; [apply cleared_8|]. split; [apply cleared_16|].
    split; [apply cleared_8|]. split; [apply cleared_16|].
    repeat split.
  - apply set_then_clear_8.
  - apply set_then_clear_16.
  - apply set_then_clear_8.
Qed.

(** Station 2 after station 1 has gone: the channel selected is INCH_3 and
    nothing of it is left afterwards. *)
Lemma deinitializeADC_undoes_initializeADC_witness :
  let w := startup 0 0 in
  ADC10CTL1 (initializeADC ptr_plant2 w) = INCH_3 + ADC10DIV_7 /\
  ADC10CTL1 (deinitializeADC ptr_plant2 (initializeADC ptr_plant2 w)) =
    ADC10CTL1 w.
Proof.
  split; [reflexivity|].
  refine (proj1 (proj2 (proj2
    (deinitializeADC_undoes_initializeADC ptr_plant2 (startup 0 0)))) _ _).
  - split; [discriminate | reflexivity].
  - reflexivity.
Defined.

(** ** The dose and the outputs of port 2 *)

Lemma dose_end_closed (v s : Z) (q : plantProperty) :
  activateSolenoid q = s ->
  Z.land (dose_end v q) (Z.lor s BIT3) = 0.
Proof. intros <-. unfold dose_end. bits_plain. Qed.

Lemma dose_end_restores (v : Z) (q : plantProperty) :
  0 <= v < 256 -> Z.land v (Z.lor (activateSolenoid q) BIT3) = 0 ->
  dose_end v q = v.
Proof.
  intros Hr H0. pose proof (uint8_small v Hr) as H8. unfold uint8 in H8.
  unfold dose_end. bits_by H8 H0.
Qed.

Lemma dose_writes_outside (p : ptr) (p2 : Z) (q : plantProperty) (v : Z) :
  In (EvP2OUT v) (dose_events p p2 q) ->
  Z.land v (Z.lnot (Z.lor (activateSolenoid q) BIT3)) =
  Z.land (uint8 p2) (Z.lnot (Z.lor (activateSolenoid q) BIT3)).
Proof.
  unfold dose_events. cbn [In].
  intros [H|[H|[H|[H|[H|[H|[H|[H|[]]]]]]]]]; try discriminate H;
    injection H as <-; bits_plain.
Qed.

(** X5: waterPlant drives the station's solenoid and the shared line and no
    other output.  Every value it writes to P2OUT, and the value it leaves,
    agrees with the P2OUT it found on every bit outside the solenoid and
    BIT3; it leaves both of these closed whatever it found; so from a P2OUT
    with both closed it gives P2OUT back unchanged.  P1OUT, the ADC10
    registers, the structs, the conversions and the millisecond clock are not
    touched, and the call takes 3 seconds plus waterTime when that is
    positive. *)
Theorem waterPlant_touches_only_its_valves (p : ptr) (w : world) :
  let q := deref p w in
  let mask := Z.lor (activateSolenoid q) BIT3 in
  let w' := waterPlant p w in
  trace w' = trace w ++ dose_events p (P2OUT w) q /\
  (forall v : Z,
      In (EvP2OUT v) (dose_events p (P2OUT w) q) ->
      Z.land v (Z.lnot mask) = Z.land (uint8 (P2OUT w)) (Z.lnot mask)) /\
  Z.land (P2OUT w') (Z.lnot mask) = Z.land (uint8 (P2OUT w)) (Z.lnot mask) /\
  Z.land (P2OUT w') mask = 0 /\
  (0 <= P2OUT w < 256 -> Z.land (P2OUT w) mask = 0 -> P2OUT w' = P2OUT w) /\
  P1OUT w' = P1OUT w /\ ADC10CTL0 w' = ADC10CTL0 w /\
  ADC10CTL1 w' = ADC10CTL1 w /\ ADC10AE0 w' = ADC10AE0 w /\
  same_plants w w' /\ conversions w' = conversions w /\
  mseconds w' = mseconds w /\
  seconds w' = seconds w + 3 + Z.max 0 (int16 (travelTime q + SOAK_TIME)).
Proof.
  intros q mask w'. subst q mask w'. rewrite waterPlant_eq.
  cbn [P1OUT P2OUT ADC10CTL0 ADC10CTL1 ADC10AE0 conversions seconds mseconds
       trace].
  split; [reflexivity|].
  split; [intros v; apply dose_writes_outside|].
  split; [unfold dose_end; bits_plain|].
  split; [now apply dose_end_closed|].
  split; [apply dose_end_restores|].
  repeat split.
Qed.

(** Station 1 on the first round: P2OUT is back at 0 after the dose. *)
Lemma waterPlant_touches_only_its_valves_witness :
  P2OUT (waterPlant ptr_plant1 (startup 0 0)) = P2OUT (startup 0 0).
Proof.
  refine (proj1 (proj2 (proj2 (proj2 (proj2
    (waterPlant_touches_only_its_valves ptr_plant1 (startup 0 0)))))) _ _).
  - split; [discriminate | reflexivity].
  - reflexivity.
Defined.

(** ** A station that returns *)

Section Returns.

Variable ADC10MEM : nat -> Z.

Lemma plantState_wet_eq (fuel : nat) (p : ptr) (w : world) :
  MOISTURE_MIN <= ADC10MEM (conversions w) ->
  plantState ADC10MEM fuel p w =
  Done tt
    (mkWorld
       (sense_off (P1OUT w) (deref p w))
       (dose_end (P2OUT w) (deref p w))
       (uint16 (Z.land (uint16 (Z.lor (ADC10CTL0 w) (ENC + ADC10SC)))
                       (Z.lnot ENC)))
       (uint16 (Z.land (uint16 (Z.lor (ADC10CTL1 w) (selectADC (deref p w))))
                       (Z.lnot (selectADC (deref p w)))))
       (uint8 (Z.land (uint8 (Z.lor (ADC10AE0 w) (sampleADC (deref p w))))
                      (Z.lnot (sampleADC (deref p w)))))
       (plant1 w) (plant2 w) (plant3 w) (S (conversions w))
       (seconds w + 3
        + Z.max 0 (int16 (travelTime (deref p w) + SOAK_TIME)))
       (mseconds w + 500)
       (trace w ++ wet_events p (P1OUT w) (P2OUT w) (deref p w)
                              (ADC10MEM (conversions w)))).
Proof.
  intros H. rewrite plantState_eq. cbn zeta.
  apply Z.ltb_ge in H. rewrite H.
  rewrite waterPlant_eq. unfold deinitializeADC. wsimpl. fold_deref p w.
  unfold wet_events, sense_off. now rewrite <- !app_assoc.
Qed.

(** X4: a station whose processing returns leaves the machine as it found
    it, but for the clocks, the trace, one conversion and ADC10CTL0.  When
    the station's supply, channel, input and valve bits and the shared line
    are clear on entry (and the registers hold what their width allows),
    P1OUT, P2OUT, ADC10CTL1 and ADC10AE0 come back unchanged, the structs
    are as they were, ENC is off, exactly one conversion was taken, and the
    processing took 500 ms and 3 seconds plus waterTime when that is
    positive. *)
Theorem returning_station_restores_the_machine
        (fuel : nat) (p : ptr) (w w' : world) :
  let q := deref p w in
  0 <= P1OUT w < 256 -> 0 <= P2OUT w < 256 ->
  0 <= ADC10CTL1 w < 65536 -> 0 <= ADC10AE0 w < 256 ->
  Z.land (P1OUT w) (enableADC q) = 0 ->
  Z.land (P2OUT w) (Z.lor (activateSolenoid q) BIT3) = 0 ->
  Z.land (ADC10CTL1 w) (selectADC q) = 0 ->
  Z.land (ADC10AE0 w) (sampleADC q) = 0 ->
  plantState ADC10MEM fuel p w = Done tt w' ->
  P1OUT w' = P1OUT w /\ P2OUT w' = P2OUT w /\
  ADC10CTL1 w' = ADC10CTL1 w /\ ADC10AE0 w' = ADC10AE0 w /\
  Z.land (ADC10CTL0 w') ENC = 0 /\
  same_plants w w' /\
  conversions w' = S (conversions w) /\
  mseconds w' = mseconds w + 500 /\
  seconds w' =
    seconds w + 3 + Z.max 0 (int16 (travelTime q + SOAK_TIME)).
Proof.
  intros q R1 R2 R3 R4 H1 H2 H3 H4 E. subst q.
  pose proof (plantState_done_is_wet _ _ _ _ _ E) as Hw.
  rewrite (plantState_wet_eq fuel p w Hw) in E.
  assert (Ew : w' = world_of (@Done unit tt w')) by reflexivity.
  rewrite <- E in Ew. cbn [world_of] in Ew. subst w'.
  cbn [P1OUT P2OUT ADC10CTL0 ADC10CTL1 ADC10AE0 conversions seconds mseconds].
  split; [apply set_then_clear_8; assumption|].
  split; [apply dose_end_restores; assumption|].
  split; [apply set_then_clear_16; assumption|].
  split; [apply set_then_clear_8; assumption|].
  split; [apply cleared_16|].
  repeat split.
Qed.

End Returns.

(** Station 1 on the first round, read at 400. *)
Lemma returning_station_restores_the_machine_witness :
  let w := startup 0 0 in
  let w' := world_of (plantState soil_wet 0 ptr_plant1 w) in
  P1OUT w' = P1OUT w /\ P2OUT w' = P2OUT w /\
  ADC10CTL1 w' = ADC10CTL1 w /\ ADC10AE0 w' = ADC10AE0 w.
Proof.
  destruct (returning_station_restores_the_machine
              soil_wet 0 ptr_plant1 (startup 0 0)
              (world_of (plantState soil_wet 0 ptr_plant1 (startup 0 0))))
    as (A & B & C & D & _);
    try (split; [discriminate | reflexivity]); try reflexivity.
  repeat split; assumption.
Defined.

(** ** The alarm's rhythm *)

Lemma alarm_frame (n : nat) :
  forall w : world,
    ADC10CTL0 (alarm n w) = ADC10CTL0 w /\
    ADC10CTL1 (alarm n w) = ADC10CTL1 w /\
    ADC10AE0 (alarm n w) = ADC10AE0 w /\
    mseconds (alarm n w) = mseconds w /\
    P1OUT (alarm (S n) w) =
      uint8 (Z.land (uint8 (Z.lor (P1OUT w) indicators)) (Z.lnot indicators)).
Proof.
  induction n as [|n IH]; intros w.
  - cbn [alarm]. rewrite alarm_body_eq. cbn [P1OUT]. repeat split.
  - destruct (IH (alarm_body w)) as (A & B & C & D & E).
    change (alarm (S (S n)) w) with (alarm (S n) (alarm_body w)).
    change (alarm (S n) w) with (alarm n (alarm_body w)).
    rewrite A, B, C, D, E. rewrite alarm_body_eq.
    cbn [P1OUT ADC10CTL0 ADC10CTL1 ADC10AE0 mseconds].
    rewrite alarm_on_again. repeat split.
Qed.

Lemma indicators_on (v : Z) :
  Z.land (uint8 (Z.lor v indicators)) indicators = indicators.
Proof.
  assert (H : Z.land indicators 255 = indicators) by reflexivity.
  bits_by H H.
Qed.

(** X7: the alarm is a square wave on P1.0, P1.2 and P1.4 with a period of
    two seconds.  After n rounds 2 n seconds have passed and the trace has
    grown by n times: the three outputs high, one second, the three outputs
    low, one second.  The other bits of P1OUT stay as the alarm found them,
    and P2OUT, the ADC10 registers, the structs and the count of conversions
    are never touched: nothing is sampled and no valve moves. *)
Theorem alarm_blinks_and_does_nothing_else (n : nat) (w : world) :
  let on := uint8 (Z.lor (P1OUT w) indicators) in
  let off := uint8 (Z.land on (Z.lnot indicators)) in
  trace (alarm n w) =
    trace w ++
    concat (repeat [EvP1OUT on; EvDelay 1; EvP1OUT off; EvDelay 1] n) /\
  seconds (alarm n w) = seconds w + 2 * Z.of_nat n /\
  Z.land on indicators = indicators /\
  Z.land off indicators = 0 /\
  Z.land on (Z.lnot indicators) =
    Z.land (uint8 (P1OUT w)) (Z.lnot indicators) /\
  Z.land off (Z.lnot indicators) =
    Z.land (uint8 (P1OUT w)) (Z.lnot indicators) /\
  P1OUT (alarm (S n) w) = off /\
  P2OUT (alarm n w) = P2OUT w /\
  ADC10CTL0 (alarm n w) = ADC10CTL0 w /\
  ADC10CTL1 (alarm n w) = ADC10CTL1 w /\
  ADC10AE0 (alarm n w) = ADC10AE0 w /\
  conversions (alarm n w) = conversions w /\
  mseconds (alarm n w) = mseconds w /\
  same_plants w (alarm n w).
Proof.
  intros on off. subst on off.
  destruct (alarm_spec n w) as (A & B & C & D & E).
  destruct (alarm_frame n w) as (F & G & H & I & J).
  split; [exact E|]. split; [exact D|].
  split; [apply indicators_on|]. split; [apply cleared_8|].
  split; [bits_plain|]. split; [bits_plain|].
  split; [exact J|].
  repeat split; assumption || apply B.
Qed.

(** ** Start-up *)

(** X12: initialize puts the outputs in their safe state from whatever the
    ports held at reset: the four valve outputs P2.0-P2.3 and the three
    sensor supplies P1.0, P1.2, P1.4 are low, every other bit of P1OUT and
    P2OUT is as it was, ADC10CTL0 holds ADC10SHT_1 + ADC10ON + ADC10IE with
    ENC off, and the clock divider is added to ADC10CTL1. *)
Theorem initialize_closes_valves_and_sensors (w : world) :
  let w' := initialize w in
  valves (P2OUT w') = 0 /\
  high (P2OUT w') = high (uint8 (P2OUT w)) /\
  Z.land (P1OUT w') indicators = 0 /\
  Z.land (P1OUT w') (Z.lnot indicators) =
    Z.land (uint8 (P1OUT w)) (Z.lnot indicators) /\
  ADC10CTL0 w' = 0x818 /\ Z.land (ADC10CTL0 w') ENC = 0 /\
  ADC10CTL1 w' = uint16 (Z.lor (ADC10CTL1 w) ADC10DIV_7) /\
  ADC10AE0 w' = ADC10AE0 w /\
  trace w' = trace w ++ [EvP1OUT (P1OUT w'); EvP2OUT (P2OUT w')] /\
  same_plants w w' /\ conversions w' = conversions w /\
  seconds w' = seconds w /\ mseconds w' = mseconds w.
Proof.
  intros w'. subst w'. unfold initialize. wsimpl.
  change (BIT0 + BIT1 + BIT2 + BIT3) with 15.
  change (BIT0 + BIT2 + BIT4) with indicators.
  split; [apply (cleared_8 (P2OUT w) 15)|].
  split.
  { assert (H : Z.land 15 0xF0 = 0) by reflexivity.
    unfold high. bits_by H H. }
  split; [apply cleared_8|].
  split; [bits_plain|].
  split; [reflexivity|]. split; [reflexivity|].
  split; [reflexivity|]. split; [reflexivity|].
  split; [now rewrite <- app_assoc|].
  repeat split.
Qed.

(** ** How long the calibration runs *)

Section Rounds.

Variable ADC10MEM : nat -> Z.

(** While the counter cannot wrap it counts the rounds of the loop, which are
    the seconds spent in it and the conversions taken by it. *)
Lemma calibration_counts (fuel : nat) :
  forall (m c : Z) (w : world) (m' c' : Z) (w' : world),
    0 <= c -> c + Z.of_nat fuel <= 32767 ->
    calibration ADC10MEM fuel m c w = Done (m', c') w' ->
    exists k : nat,
      (k <= fuel)%nat /\ c' = c + Z.of_nat k /\
      seconds w' = seconds w + Z.of_nat k /\
      conversions w' = (conversions w + k)%nat /\
      mseconds w' = mseconds w /\
      (k = O -> m' = m) /\
      (0 < k -> m' = ADC10MEM (conversions w + k - 1))%nat.
Proof.
  induction fuel as [|fuel IH]; intros m c w m' c' w' Hc Hf E.
  - cbn [calibration] in E.
    destruct ((m <? MOISTURE_MAX) || (c <? MAX_TRAVEL)); [discriminate|].
    assert (Em : m' = m) by congruence.
    assert (Ec : c' = c) by congruence.
    assert (Ew : w' = w) by congruence. subst.
    exists O. split; [lia|]. split; [lia|]. split; [lia|].
    split; [lia|]. split; [reflexivity|]. split; [reflexivity|].
    intros H; lia.
  - cbn [calibration] in E.
    destruct ((m <? MOISTURE_MAX) || (c <? MAX_TRAVEL)).
    + rewrite calibration_body_eq in E.
      rewrite int16_small in E by lia.
      apply IH in E; [|lia|lia].
      destruct E as (k & Hk & E1 & E2 & E3 & E4 & E5 & E6).
      cbn [seconds conversions mseconds] in E2, E3, E4, E6.
      exists (S k). split; [lia|]. split; [lia|]. split; [lia|].
      split; [lia|]. split; [exact E4|]. split; [discriminate|].
      intros _. destruct k as [|k].
      * rewrite (E5 eq_refl). f_equal. lia.
      * rewrite E6 by lia. f_equal. lia.
    + assert (Em : m' = m) by congruence.
      assert (Ec : c' = c) by congruence.
      assert (Ew : w' = w) by congruence. subst.
      exists O. split; [lia|]. split; [lia|]. split; [lia|].
      split; [lia|]. split; [reflexivity|]. split; [reflexivity|].
      intros H; lia.
Qed.

(** The loop leaves after round [K] when [K] is the first round from the
    fifth on whose sample is wet; [b + j - 1] is the conversion of round
    [j]. *)
Lemma calibration_leaves_at (b K : nat) :
  (5 <= K)%nat -> Z.of_nat K <= 32767 ->
  MOISTURE_MAX <= ADC10MEM (b + K - 1) ->
  (forall j : nat, (5 <= j < K)%nat -> ADC10MEM (b + j - 1) < MOISTURE_MAX) ->
  forall (r c fuel : nat) (m : Z) (w : world),
    (c + r = K)%nat -> (r <= fuel)%nat ->
    conversions w = (b + c)%nat ->
    ((5 <= c)%nat -> m = ADC10MEM (b + c - 1)) ->
    exists w' : world,
      calibration ADC10MEM fuel m (Z.of_nat c) w =
        Done (ADC10MEM (b + K - 1), Z.of_nat K) w' /\
      seconds w' = seconds w + Z.of_nat r /\
      conversions w' = (b + K)%nat.
Proof.
  intros H5 H16 Hwet Hdry.
  induction r as [|r IH]; intros c fuel m w Hr Hf Hb Hm.
  - assert (c = K) by lia. subst c.
    rewrite <- (Hm H5) in *. exists w.
    rewrite calibration_exit; [|exact Hwet|unfold MAX_TRAVEL; lia].
    repeat split; [lia | exact Hb].
  - destruct fuel as [|fuel]; [lia|].
    assert (Hcont : m < MOISTURE_MAX \/ Z.of_nat c < MAX_TRAVEL).
    { destruct (Nat.lt_ge_cases c 5) as [Hlt|Hge].
      - right. unfold MAX_TRAVEL. lia.
      - left. rewrite (Hm Hge). apply Hdry. lia. }
    rewrite (calibration_again ADC10MEM fuel m _ w Hcont).
    rewrite calibration_body_eq. cbn [snd].
    rewrite int16_small by lia.
    replace (Z.of_nat c + 1) with (Z.of_nat (S c)) by lia.
    edestruct (IH (S c) fuel) as (w' & E & Es & Ec);
      [| | |intros _|exists w'; split; [exact E|]].
    + lia.
    + lia.
    + cbn [conversions]. lia.
    + rewrite Hb. f_equal. lia.
    + cbn [seconds] in Es. split; [lia | exact Ec].
Qed.

(** preWaterPlant as its loop: the machine on entry of the loop, and the
    alarm behind every exit. *)
Lemma preWaterPlant_eq (fuel : nat) (p : ptr) (w : world) :
  preWaterPlant ADC10MEM fuel p w =
  match
    calibration ADC10MEM fuel (ADC10MEM (conversions w)) 0
      (mkWorld (P1OUT w)
               (uint8 (Z.lor (P2OUT w) (activateSolenoid (deref p w))))
               (uint16 (Z.lor (ADC10CTL0 w) (ENC + ADC10SC)))
               (ADC10CTL1 w) (ADC10AE0 w) (plant1 w) (plant2 w) (plant3 w)
               (S (conversions w)) (seconds w + 1) (mseconds w)
               (trace w ++
                [EvPreWaterPlant p; EvADC10MEM (ADC10MEM (conversions w));
                 EvP2OUT (uint8 (Z.lor (P2OUT w)
                                       (activateSolenoid (deref p w))));
                 EvDelay 1]))
  with
  | Done _ w1 => Spin InAlarm (alarm fuel w1)
  | Spin l w1 => Spin l w1
  end.
Proof.
  unfold preWaterPlant, checkMoisture. rewrite delay_eq. wsimpl.
  fold_deref p w. rewrite <- !app_assoc. cbn [app].
  change (Z.max 0 1) with 1.
  match goal with
  | |- context [calibration _ fuel ?m ?c ?w0] =>
      pose proof (fun m' c' w' =>
                    calibration_done ADC10MEM fuel m c m' c' w0 w') as Cd;
      destruct (calibration ADC10MEM fuel m c w0) as [[m' c'] w1|l w1]
  end; [|reflexivity].
  destruct (Cd m' c' w1 eq_refl) as (_ & Hc).
  apply Z.geb_le in Hc. now rewrite Hc.
Qed.

(** X8: a calibration that reaches the alarm has counted its seconds.  With a
    budget that cannot wrap the counter, if preWaterPlant is found in the
    alarm then the loop ran some k >= 5 rounds: the alarm was entered 1 + k
    seconds after preWaterPlant, which is at least 6 seconds with the
    station's valve open, after 1 + k conversions, and the sample of round k
    was at or above MOISTURE_MAX. *)
Theorem alarm_comes_after_the_counted_rounds
        (fuel : nat) (p : ptr) (w w' : world) :
  Z.of_nat fuel <= 32767 ->
  preWaterPlant ADC10MEM fuel p w = Spin InAlarm w' ->
  exists (w1 : world) (k : nat),
    w' = alarm fuel w1 /\ (5 <= k <= fuel)%nat /\
    seconds w1 = seconds w + 1 + Z.of_nat k /\
    conversions w1 = (conversions w + 1 + k)%nat /\
    MOISTURE_MAX <= ADC10MEM (conversions w + k).
Proof.
  intros Hf. rewrite preWaterPlant_eq.
  match goal with
  | |- context [calibration _ fuel ?m ?c ?w0] =>
      pose proof (calibration_counts fuel m c w0) as Cn;
      pose proof (fun m' c' w' =>
                    calibration_done ADC10MEM fuel m c m' c' w0 w') as Cd;
      pose proof (calibration_spec ADC10MEM fuel m c w0) as Cs;
      cbn zeta in Cs;
      destruct (calibration ADC10MEM fuel m c w0) as [[m' c'] w1|l w1]
  end.
  - destruct (Cd m' c' w1 eq_refl) as (Hm & Hc).
    destruct (Cn m' c' w1) as (k & Hk & E1 & E2 & E3 & _ & _ & E6);
      [lia|lia|reflexivity|].
    cbn [seconds conversions] in E2, E3, E6.
    intros E. exists w1, k.
    split; [congruence|]. unfold MAX_TRAVEL in Hc.
    split; [lia|]. split; [lia|]. split; [lia|].
    rewrite E6 in Hm by lia.
    replace (conversions w + k)%nat with (S (conversions w) + k - 1)%nat
      by lia.
    exact Hm.
  - destruct Cs as (_ & _ & _ & Hl & _). intros E. congruence.
Qed.

(** X9: the alarm is raised at the first round, from the fifth on, whose
    sample is at or above MOISTURE_MAX.  If round k >= 5 of the loop reads
    wet and no round from the fifth to the one before k does, then with a
    budget of k or more (and k within an [int]) preWaterPlant is found in the
    alarm, entered 1 + k seconds and 1 + k conversions after its entry.
    What the first four rounds and the sample before the loop read does not
    matter: on soil that is wet from the start the valves are still open for
    the five rounds. *)
Theorem alarm_at_the_first_wet_round_from_the_fifth
        (fuel k : nat) (p : ptr) (w : world) :
  (5 <= k <= fuel)%nat -> Z.of_nat k <= 32767 ->
  MOISTURE_MAX <= ADC10MEM (conversions w + k) ->
  (forall j : nat,
      (5 <= j < k)%nat -> ADC10MEM (conversions w + j) < MOISTURE_MAX) ->
  exists w1 : world,
    preWaterPlant ADC10MEM fuel p w = Spin InAlarm (alarm fuel w1) /\
    seconds w1 = seconds w + 1 + Z.of_nat k /\
    conversions w1 = (conversions w + 1 + k)%nat.
Proof.
  intros Hk H16 Hwet Hdry. rewrite preWaterPlant_eq.
  assert (Hwet' : MOISTURE_MAX <= ADC10MEM (S (conversions w) + k - 1)).
  { replace (S (conversions w) + k - 1)%nat with (conversions w + k)%nat
      by lia. exact Hwet. }
  assert (Hdry' : forall j : nat, (5 <= j < k)%nat ->
                  ADC10MEM (S (conversions w) + j - 1) < MOISTURE_MAX).
  { intros j Hj.
    replace (S (conversions w) + j - 1)%nat with (conversions w + j)%nat
      by lia. now apply Hdry. }
  match goal with
  | |- context [calibration _ fuel ?m _ ?w0] =>
      destruct (calibration_leaves_at (S (conversions w)) k
                  (proj1 Hk) H16 Hwet' Hdry' k O fuel m w0)
        as (w1 & E & Es & Ec)
  end.
  - lia.
  - lia.
  - cbn [conversions]. lia.
  - lia.
  - cbn [Z.of_nat] in E. rewrite E. exists w1.
    split; [reflexivity|]. cbn [seconds] in Es.
    split; lia.
Qed.

End Rounds.

(** Scenario A with a budget of 9: the alarm after five rounds. *)
Lemma alarm_comes_after_the_counted_rounds_witness :
  exists (w1 : world) (k : nat),
    world_of (preWaterPlant soil_scenario_A 9 ptr_plant1 (startup 0 0)) =
      alarm 9 w1 /\
    (5 <= k <= 9)%nat /\
    seconds w1 = seconds (startup 0 0) + 1 + Z.of_nat k.
Proof.
  destruct (alarm_comes_after_the_counted_rounds
              soil_scenario_A 9 ptr_plant1 (startup 0 0)
              (world_of (preWaterPlant soil_scenario_A 9 ptr_plant1
                                       (startup 0 0))))
    as (w1 & k & E & Hk & Hs & _).
  - discriminate.
  - vm_compute. reflexivity.
  - exists w1, k. repeat split; assumption || apply Hk.
Defined.

(** Water that arrives at round 7: the alarm after 8 seconds. *)
Lemma alarm_at_the_first_wet_round_from_the_fifth_witness :
  exists w1 : world,
    preWaterPlant soil_late 10 ptr_plant1 (startup 0 0) =
      Spin InAlarm (alarm 10 w1) /\
    seconds w1 = seconds (startup 0 0) + 1 + 7.
Proof.
  destruct (alarm_at_the_first_wet_round_from_the_fifth
              soil_late 10 7 ptr_plant1 (startup 0 0))
    as (w1 & E & Hs & _).
  - lia.
  - discriminate.
  - discriminate.
  - intros j Hj. assert (C : j = 5%nat \/ j = 6%nat) by lia.
    destruct C as [-> | ->]; reflexivity.
  - exists w1. split; assumption.
Defined.

(** ** Once calibration starts *)

Lemma cal_event_loop (x : Z) (e : event) : cal_event x e -> loop_event e.
Proof.
  intros [->|[->|[m ->]]]; unfold loop_event; eauto 6.
Qed.

Lemma alarm_event_loop (e : event) : alarm_event e -> loop_event e.
Proof.
  intros [->|[v ->]]; unfold loop_event; eauto 6.
Qed.

Lemma loop_event_not_entry (e : event) : loop_event e -> is_entry e = false.
Proof.
  intros [[v ->]|[->|[[m ->]|[v ->]]]]; reflexivity.
Qed.

Section Final.

Variable ADC10MEM : nat -> Z.

Lemma preWaterPlant_events (fuel : nat) (p : ptr) (w : world) :
  exists rest : list event,
    trace (world_of (preWaterPlant ADC10MEM fuel p w)) =
      trace w ++ EvPreWaterPlant p :: rest /\
    Forall loop_event rest.
Proof.
  rewrite preWaterPlant_eq.
  match goal with
  | |- context [calibration _ fuel ?m ?c ?w0] =>
      destruct (calibration_spec ADC10MEM fuel m c w0)
        as (_ & _ & (tr & Et & Ft) & _);
      destruct (calibration ADC10MEM fuel m c w0) as [[m' c'] w1|l w1]
  end; cbn [world_of trace] in *.
  - destruct (alarm_extends fuel w1) as (ta & Ea & Fa).
    exists ([EvADC10MEM (ADC10MEM (conversions w));
             EvP2OUT (uint8 (Z.lor (P2OUT w) (activateSolenoid (deref p w))));
             EvDelay 1] ++ tr ++ ta).
    split.
    + rewrite Ea, Et, <- !app_assoc. reflexivity.
    + apply Forall_app. split.
      * repeat (apply Forall_cons;
                [unfold loop_event; eauto 6|]). constructor.
      * apply Forall_app. split.
        -- eapply Forall_impl; [|exact Ft]. apply cal_event_loop.
        -- eapply Forall_impl; [|exact Fa]. apply alarm_event_loop.
  - exists ([EvADC10MEM (ADC10MEM (conversions w));
             EvP2OUT (uint8 (Z.lor (P2OUT w) (activateSolenoid (deref p w))));
             EvDelay 1] ++ tr).
    split.
    + rewrite Et, <- !app_assoc. reflexivity.
    + apply Forall_app. split.
      * repeat (apply Forall_cons;
                [unfold loop_event; eauto 6|]). constructor.
      * eapply Forall_impl; [|exact Ft]. apply cal_event_loop.
Qed.

(** A station either returns, without calibration, or is stuck behind the
    entry of preWaterPlant. *)
Lemma plantState_returns_or_calibrates (fuel : nat) (p : ptr) (w : world) :
  (exists w' : world,
      plantState ADC10MEM fuel p w = Done tt w' /\
      MOISTURE_MIN <= ADC10MEM (conversions w) /\
      trace w' = trace w ++ wet_events p (P1OUT w) (P2OUT w) (deref p w)
                                       (ADC10MEM (conversions w))) \/
  (exists (l : loop) (w' : world) (rest : list event),
      plantState ADC10MEM fuel p w = Spin l w' /\
      (l = InCalibration \/ l = InAlarm) /\
      ADC10MEM (conversions w) < MOISTURE_MIN /\
      trace w' =
        (trace w ++ sense_events p (P1OUT w) (deref p w)
                                 (ADC10MEM (conversions w)))
        ++ EvPreWaterPlant p :: rest /\
      Forall loop_event rest).
Proof.
  destruct (Z.lt_ge_cases (ADC10MEM (conversions w)) MOISTURE_MIN) as [Hd|Hw].
  - right.
    destruct (plantState_dry ADC10MEM fuel p w Hd)
      as (l & w' & _ & E & _ & _ & _ & Hl).
    pose proof (plantState_eq ADC10MEM fuel p w) as Q. cbn zeta in Q.
    pose proof Hd as Hb. apply Z.ltb_lt in Hb. rewrite Hb in Q.
    match type of Q with
    | context [preWaterPlant _ fuel p ?w0] =>
        destruct (preWaterPlant_events fuel p w0) as (rest & Et & Fr);
        destruct (preWaterPlant ADC10MEM fuel p w0) as [[] w1|l1 w1] eqn:P
    end.
    + exfalso. eapply preWaterPlant_never_done. exact P.
    + rewrite E in Q. cbn [world_of trace] in Et.
      exists l, w', rest. split; [exact E|].
      split; [destruct Hl as [(Hl & _)|(Hl & _)]; auto|].
      split; [exact Hd|]. split; [|exact Fr].
      assert (Ew : w' = w1) by congruence. subst w1. exact Et.
  - left. destruct (plantState_wet ADC10MEM fuel p w Hw)
      as (w' & E & _ & _ & _ & _ & Ht).
    exists w'. repeat split; assumption.
Qed.

Lemma station_returns_or_calibrates (fuel : nat) (p : ptr) (w : world) :
  filter is_calibration (trace w) = [] ->
  (exists w' : world,
      plantState ADC10MEM fuel p w = Done tt w' /\
      filter is_calibration (trace w') = []) \/
  (exists (l : loop) (w' : world) (pre : list event) (rest : list event),
      plantState ADC10MEM fuel p w = Spin l w' /\
      (l = InCalibration \/ l = InAlarm) /\
      trace w' = pre ++ EvPreWaterPlant p :: rest /\
      filter is_calibration pre = [] /\
      Forall loop_event rest).
Proof.
  intros H0.
  destruct (plantState_returns_or_calibrates fuel p w)
    as [(w' & E & _ & Et)|(l & w' & rest & E & Hl & _ & Et & Fr)].
  - left. exists w'. split; [exact E|].
    rewrite Et, filter_app, H0. reflexivity.
  - right.
    exists l, w',
      (trace w ++ sense_events p (P1OUT w) (deref p w)
                               (ADC10MEM (conversions w))), rest.
    split; [exact E|]. split; [exact Hl|].
    split; [exact Et|]. split; [|exact Fr].
    rewrite filter_app, H0. reflexivity.
Qed.

Lemma filter_repeat_none {A} (f : A -> bool) (x : A) (n : nat) :
  f x = false -> filter f (repeat x n) = [].
Proof.
  intros H. apply filter_none, Forall_forall. intros y Hy.
  apply repeat_spec in Hy. now subst y.
Qed.

Lemma cycle_returns_or_calibrates (fuel : nat) (w : world) :
  filter is_calibration (trace w) = [] ->
  (exists w' : world,
      cycle ADC10MEM fuel w = Done tt w' /\
      filter is_calibration (trace w') = []) \/
  (exists (l : loop) (w' : world) (pre : list event) (p : ptr)
          (rest : list event),
      cycle ADC10MEM fuel w = Spin l w' /\
      (l = InCalibration \/ l = InAlarm) /\
      trace w' = pre ++ EvPreWaterPlant p :: rest /\
      filter is_calibration pre = [] /\
      Forall loop_event rest).
Proof.
  intros H0. unfold cycle, bind.
  destruct (station_returns_or_calibrates fuel ptr_plant1 w H0)
    as [(w1 & E1 & H1)|(l & w' & pre & rest & E & R)].
  2:{ right. rewrite E. exists l, w', pre, ptr_plant1, rest.
      split; [reflexivity | exact R]. }
  rewrite E1.
  destruct (station_returns_or_calibrates fuel ptr_plant2 w1 H1)
    as [(w2 & E2 & H2)|(l & w' & pre & rest & E & R)].
  2:{ right. rewrite E. exists l, w', pre, ptr_plant2, rest.
      split; [reflexivity | exact R]. }
  rewrite E2.
  destruct (station_returns_or_calibrates fuel ptr_plant3 w2 H2)
    as [(w3 & E3 & H3)|(l & w' & pre & rest & E & R)].
  2:{ right. rewrite E. exists l, w', pre, ptr_plant3, rest.
      split; [reflexivity | exact R]. }
  rewrite E3. left. unfold exec. eexists. split; [reflexivity|].
  rewrite hdelay_eq. cbn [trace]. rewrite filter_app, H3.
  cbn [filter is_calibration app]. now apply filter_repeat_none.
Qed.

Lemma main_loop_returns_or_calibrates (fuel rounds : nat) :
  forall w : world,
    filter is_calibration (trace w) = [] ->
    let r := main_loop ADC10MEM fuel rounds w in
    (fst r = InMain /\ filter is_calibration (trace (snd r)) = []) \/
    ((fst r = InCalibration \/ fst r = InAlarm) /\
     exists (pre : list event) (p : ptr) (rest : list event),
       trace (snd r) = pre ++ EvPreWaterPlant p :: rest /\
       filter is_calibration pre = [] /\
       Forall loop_event rest).
Proof.
  induction rounds as [|rounds IH]; intros w H0 r; subst r.
  - left. cbn [main_loop fst snd]. now split.
  - cbn [main_loop].
    destruct (cycle_returns_or_calibrates fuel w H0)
      as [(w1 & E & H1)|(l & w' & pre & p & rest & E & Hl & R)].
    + rewrite E. apply IH, H1.
    + rewrite E. right. cbn [fst snd]. split; [exact Hl|].
      exists pre, p, rest. exact R.
Qed.

(** X11: once preWaterPlant is entered nothing else ever happens.  A run of
    main is either found in the outer loop without any calibration in its
    trace, or found in the calibration loop or the alarm with exactly one
    entry of preWaterPlant in its trace, after which the trace holds only
    port writes, one-second waits and samples: no station is started, no
    dose is given, no sleep begins and no travelTime is stored after it. *)
Theorem calibration_is_the_end_of_the_run (fuel : nat) (p1 p2 : Z) :
  let r := main ADC10MEM fuel p1 p2 in
  (fst r = InMain /\ filter is_calibration (trace (snd r)) = []) \/
  ((fst r = InCalibration \/ fst r = InAlarm) /\
   exists (pre : list event) (p : ptr) (rest : list event),
     trace (snd r) = pre ++ EvPreWaterPlant p :: rest /\
     filter is_calibration pre = [] /\
     Forall loop_event rest /\
     filter is_entry rest = []).
Proof.
  intros r. subst r. unfold main.
  destruct (main_loop_returns_or_calibrates fuel fuel (startup p1 p2) eq_refl)
    as [H|(Hl & pre & p & rest & Et & Hp & Fr)].
  - left. exact H.
  - right. split; [exact Hl|]. exists pre, p, rest.
    split; [exact Et|]. split; [exact Hp|]. split; [exact Fr|].
    apply filter_none. eapply Forall_impl; [|exact Fr].
    apply loop_event_not_entry.
Qed.

End Final.

(** ** Soil that is never dry *)

Lemma submask_clear (v m k : Z) :
  Z.land v m = 0 -> Z.land k m = k -> Z.land v k = 0.
Proof. intros H1 H2. bits_by H1 H2. Qed.

Lemma plants_init_deref (p : ptr) (w : world) :
  plants_init w ->
  deref p w = match p with
              | ptr_plant1 => plant1_init
              | ptr_plant2 => plant2_init
              | ptr_plant3 => plant3_init
              end.
Proof. intros (A & B & C). destruct p; assumption. Qed.

Lemma startup_idle (p1 p2 : Z) : idle (startup p1 p2).
Proof.
  split; [apply startup_plants|].
  split; [apply uint8_range|].
  split; [apply (cleared_8 (uint8 p1) indicators)|].
  split; [apply uint8_range|].
  split; [apply startup_closed|].
  split; reflexivity.
Qed.

Section NeverDry.

Variable ADC10MEM : nat -> Z.

(** A wet station between two stations: everything back in its place six
    seconds, 500 ms and one conversion later. *)
Lemma idle_station (fuel : nat) (p : ptr) (w : world) :
  idle w -> MOISTURE_MIN <= ADC10MEM (conversions w) ->
  exists w' : world,
    plantState ADC10MEM fuel p w = Done tt w' /\
    idle w' /\
    P1OUT w' = P1OUT w /\ P2OUT w' = P2OUT w /\
    conversions w' = S (conversions w) /\
    seconds w' = seconds w + 6 /\
    mseconds w' = mseconds w + 500 /\
    trace w' = trace w ++ wet_events p (P1OUT w) (P2OUT w) (deref p w)
                                     (ADC10MEM (conversions w)).
Proof.
  intros (Hi & R1 & H1 & R2 & H2 & H3 & H4) Hw.
  eexists. split; [apply (plantState_wet_eq ADC10MEM fuel p w Hw)|].
  pose proof (plants_init_deref p w Hi) as Hq.
  assert (E1 : sense_off (P1OUT w) (deref p w) = P1OUT w).
  { apply set_then_clear_8; [exact R1|].
    apply (submask_clear _ _ _ H1). rewrite Hq. now destruct p. }
  assert (E2 : dose_end (P2OUT w) (deref p w) = P2OUT w).
  { apply dose_end_restores; [exact R2|].
    apply (submask_clear _ _ _ H2). rewrite Hq. now destruct p. }
  unfold idle, plants_init.
  cbn [P1OUT P2OUT ADC10CTL1 ADC10AE0 conversions seconds mseconds trace
       plant1 plant2 plant3].
  rewrite E1, E2, H3, H4, Hq.
  split.
  { split; [exact Hi|]. split; [exact R1|]. split; [exact H1|].
    split; [exact R2|]. split; [exact H2|]. now destruct p. }
  split; [reflexivity|]. split; [reflexivity|]. split; [reflexivity|].
  split; [destruct p; cbn; lia|]. split; reflexivity.
Qed.

Lemma wet_events_doses (p : ptr) (p1 p2 : Z) (q : plantProperty) (m : Z) :
  filter is_dose (wet_events p p1 p2 q m) = [EvWaterPlant p] /\
  filter is_calibration (wet_events p p1 p2 q m) = [].
Proof. split; reflexivity. Qed.

Lemma main_loop_on_wet_soil (fuel rounds : nat) :
  (forall n : nat, MOISTURE_MIN <= ADC10MEM n) ->
  forall w : world,
    idle w ->
    exists w' : world,
      main_loop ADC10MEM fuel rounds w = (InMain, w') /\
      idle w' /\
      P1OUT w' = P1OUT w /\ P2OUT w' = P2OUT w /\
      conversions w' = (conversions w + 3 * rounds)%nat /\
      seconds w' = seconds w + 172818 * Z.of_nat rounds /\
      mseconds w' = mseconds w + 1500 * Z.of_nat rounds /\
      filter is_calibration (trace w') = filter is_calibration (trace w) /\
      length (filter is_dose (trace w')) =
        (length (filter is_dose (trace w)) + 3 * rounds)%nat.
Proof.
  intros Hwet. induction rounds as [|rounds IH]; intros w Hi.
  - exists w. cbn [main_loop]. split; [reflexivity|]. split; [exact Hi|].
    repeat split; lia.
  - cbn [main_loop]. unfold cycle, bind.
    destruct (idle_station fuel ptr_plant1 w Hi (Hwet _))
      as (w1 & E1 & I1 & A1 & B1 & C1 & S1 & M1 & T1).
    destruct (idle_station fuel ptr_plant2 w1 I1 (Hwet _))
      as (w2 & E2 & I2 & A2 & B2 & C2 & S2 & M2 & T2).
    destruct (idle_station fuel ptr_plant3 w2 I2 (Hwet _))
      as (w3 & E3 & I3 & A3 & B3 & C3 & S3 & M3 & T3).
    rewrite E1, E2, E3. unfold exec.
    assert (I4 : idle (hdelay 48 w3)).
    { rewrite hdelay_eq. exact I3. }
    destruct (IH (hdelay 48 w3) I4)
      as (w' & E & I & A & B & C & S & M & Fc & Fd).
    exists w'. split; [exact E|]. split; [exact I|].
    rewrite hdelay_eq in A, B, C, S, M, Fc, Fd.
    cbn [P1OUT P2OUT conversions seconds mseconds trace] in A, B, C, S, M,
      Fc, Fd.
    rewrite filter_app in Fc, Fd.
    cbn [filter is_calibration is_dose] in Fc, Fd.
    rewrite filter_repeat_none in Fc, Fd by reflexivity.
    rewrite app_nil_r in Fc, Fd.
    rewrite T3, T2, T1, !filter_app in Fc, Fd.
    rewrite !(proj2 (wet_events_doses _ _ _ _ _)), !app_nil_r in Fc.
    rewrite !(proj1 (wet_events_doses _ _ _ _ _)), !length_app in Fd.
    cbn [length] in Fd.
    split; [congruence|]. split; [congruence|].
    split; [lia|]. split; [lia|]. split; [lia|].
    split; [exact Fc|]. lia.
Qed.

(** X10: on soil that never reads below MOISTURE_MIN main never leaves its
    outer loop and never calibrates.  After any number of rounds it is found
    in the outer loop, every round having taken 172818 seconds (three doses
    of 6 seconds and the 48 hours), 1500 ms of settling and three
    conversions, and having given three doses; P1OUT, P2OUT, ADC10CTL1 and
    ADC10AE0 are as start-up left them, so every sensor and channel is off
    and every valve is closed, and the structs are untouched. *)
Theorem wet_soil_keeps_the_rounds_going (fuel : nat) (p1 p2 : Z) :
  (forall n : nat, MOISTURE_MIN <= ADC10MEM n) ->
  exists w' : world,
    main ADC10MEM fuel p1 p2 = (InMain, w') /\
    seconds w' = 172818 * Z.of_nat fuel /\
    mseconds w' = 1500 * Z.of_nat fuel /\
    conversions w' = (3 * fuel)%nat /\
    length (filter is_dose (trace w')) = (3 * fuel)%nat /\
    filter is_calibration (trace w') = [] /\
    P1OUT w' = P1OUT (startup p1 p2) /\
    P2OUT w' = P2OUT (startup p1 p2) /\
    valves (P2OUT w') = 0 /\ Z.land (P1OUT w') indicators = 0 /\
    ADC10CTL1 w' = ADC10DIV_7 /\ ADC10AE0 w' = 0 /\
    plants_init w'.
Proof.
  intros Hwet. unfold main.
  destruct (main_loop_on_wet_soil fuel fuel Hwet (startup p1 p2)
                                  (startup_idle p1 p2))
    as (w' & E & (Hi & _ & H1 & _ & H2 & H3 & H4) & A & B & C & S & M & Fc & Fd).
  exists w'. split; [exact E|].
  split; [exact S|]. split; [exact M|]. split; [exact C|].
  split; [exact Fd|]. split; [exact Fc|].
  repeat split; assumption || apply Hi.
Qed.

End NeverDry.

(** Two rounds on soil read at 400. *)
Lemma wet_soil_keeps_the_rounds_going_witness :
  exists w' : world,
    main soil_wet 2 0 0 = (InMain, w') /\
    seconds w' = 172818 * 2 /\ conversions w' = 6%nat.
Proof.
  destruct (wet_soil_keeps_the_rounds_going soil_wet 2 0 0)
    as (w' & E & S & _ & C & _).
  - intros n. discriminate.
  - exists w'. split; [exact E|]. split; [exact S | exact C].
Defined.

(** ** The valves together *)

Lemma high_set (v m : Z) :
  Z.land m 0xF0 = 0 -> high (uint8 (Z.lor v m)) = high v.
Proof.
  intros H. assert (K : Z.land 0xF0 255 = 0xF0) by reflexivity.
  unfold high. bits_by H K.
Qed.

Lemma high_clear (v m : Z) :
  Z.land m 0xF0 = 0 -> high (uint8 (Z.land v (Z.lnot m))) = high v.
Proof.
  intros H. assert (K : Z.land 0xF0 255 = 0xF0) by reflexivity.
  unfold high. bits_by H K.
Qed.

Lemma solenoid_low (p : ptr) : Z.land (solenoid p) 0xF0 = 0.
Proof. now destruct p. Qed.

Lemma solenoid_states (p : ptr) :
  In (solenoid p) [0; 1; 2; 4; 9; 10; 12] /\
  In (Z.lor (solenoid p) BIT3) [0; 1; 2; 4; 9; 10; 12].
Proof. destruct p; cbn; tauto. Qed.

(** The four writes of a dose and the two of a calibration, from closed
    valves. *)
Lemma station_writes_ok (p : ptr) (p2 : Z) :
  valves p2 = 0 ->
  let x1 := uint8 (Z.lor p2 (solenoid p)) in
  let x2 := uint8 (Z.lor x1 BIT3) in
  let x3 := uint8 (Z.land x2 (Z.lnot BIT3)) in
  let x4 := uint8 (Z.land x3 (Z.lnot (solenoid p))) in
  p2_ok (high p2) (EvP2OUT x1) /\ p2_ok (high p2) (EvP2OUT x2) /\
  p2_ok (high p2) (EvP2OUT x3) /\ p2_ok (high p2) (EvP2OUT x4).
Proof.
  intros H0 x1 x2 x3 x4.
  destruct (dose_valves p2 (solenoid p) H0 (solenoid_cases p))
    as (V1 & V2 & V3 & V4).
  fold x1 x2 x3 x4 in V1, V2, V3, V4.
  assert (H1 : high x1 = high p2) by apply high_set, solenoid_low.
  assert (H2 : high x2 = high p2)
    by (unfold x2; rewrite high_set; [exact H1 | reflexivity]).
  assert (H3 : high x3 = high p2)
    by (unfold x3; rewrite high_clear; [exact H2 | reflexivity]).
  assert (H4 : high x4 = high p2)
    by (unfold x4; rewrite high_clear; [exact H3 | apply solenoid_low]).
  destruct (solenoid_states p) as (S1 & S2).
  cbn [p2_ok]. rewrite V1, V2, V3, V4.
  repeat split; try assumption. now left.
Qed.

Section Interlock.

Variable ADC10MEM : nat -> Z.

Lemma station_p2 (fuel : nat) (p : ptr) (w : world) (hi : Z) :
  plants_init w -> valves (P2OUT w) = 0 -> high (P2OUT w) = hi ->
  extends (p2_ok hi) w (world_of (plantState ADC10MEM fuel p w)) /\
  (forall w' : world,
      plantState ADC10MEM fuel p w = Done tt w' ->
      plants_init w' /\ valves (P2OUT w') = 0 /\ high (P2OUT w') = hi).
Proof.
  intros Hi Hv <-.
  pose proof (plants_init_solenoid p w Hi) as Hs.
  destruct (station_writes_ok p (P2OUT w) Hv) as (K1 & K2 & K3 & K4).
  destruct (Z.lt_ge_cases (ADC10MEM (conversions w)) MOISTURE_MIN) as [Hd|Hw].
  - destruct (plantState_dry ADC10MEM fuel p w Hd)
      as (l & w' & rest & E & _ & Ht & Hf & _).
    rewrite E. cbn [world_of]. split; [|intros w1 E1; discriminate E1].
    rewrite Hs in Hf.
    eexists. split; [exact Ht|].
    apply Forall_app. split.
    + unfold sense_events. repeat (apply Forall_cons; [exact I|]).
      constructor.
    + apply Forall_cons; [exact I|].
      eapply Forall_impl; [|exact Hf].
      intros e [->|[->|[->|[->|[[m ->]|[v ->]]]]]];
        solve [exact I | exact K1 | exact K2].
  - destruct (plantState_wet ADC10MEM fuel p w Hw)
      as (w' & E & Hp & H2 & _ & _ & Ht).
    rewrite E. cbn [world_of]. split.
    + eexists. split; [exact Ht|].
      unfold wet_events, sense_events, dose_events. rewrite Hs.
      cbn [app].
      repeat (apply Forall_cons;
              [first [exact I | exact K1 | exact K2 | exact K3 | exact K4]|]).
      constructor.
    + intros w1 E1. assert (w1 = w') by congruence. subst w1.
      split; [eapply plants_init_same; eassumption|].
      rewrite H2. unfold dose_end. rewrite Hs.
      cbn [p2_ok] in K4. destruct K4 as (K4h & _).
      split; [|exact K4h].
      now destruct (dose_valves (P2OUT w) (solenoid p) Hv (solenoid_cases p))
        as (_ & _ & _ & V4).
Qed.

Lemma cycle_p2 (fuel : nat) (w : world) (hi : Z) :
  plants_init w -> valves (P2OUT w) = 0 -> high (P2OUT w) = hi ->
  extends (p2_ok hi) w (world_of (cycle ADC10MEM fuel w)) /\
  (forall w' : world,
      cycle ADC10MEM fuel w = Done tt w' ->
      plants_init w' /\ valves (P2OUT w') = 0 /\ high (P2OUT w') = hi).
Proof.
  intros Hi Hv Hh. unfold cycle, bind.
  destruct (station_p2 fuel ptr_plant1 w hi Hi Hv Hh) as (X1 & D1).
  destruct (plantState ADC10MEM fuel ptr_plant1 w) as [[] w1|l w1];
    cbn [world_of] in *; [|split; [exact X1 | intros w' E; discriminate E]].
  destruct (D1 w1 eq_refl) as (Hi1 & Hv1 & Hh1).
  destruct (station_p2 fuel ptr_plant2 w1 hi Hi1 Hv1 Hh1) as (X2 & D2).
  destruct (plantState ADC10MEM fuel ptr_plant2 w1) as [[] w2|l w2];
    cbn [world_of] in *;
    [|split; [eapply extends_trans; eassumption
             | intros w' E; discriminate E]].
  destruct (D2 w2 eq_refl) as (Hi2 & Hv2 & Hh2).
  destruct (station_p2 fuel ptr_plant3 w2 hi Hi2 Hv2 Hh2) as (X3 & D3).
  destruct (plantState ADC10MEM fuel ptr_plant3 w2) as [[] w3|l w3];
    cbn [world_of] in *;
    [|split; [eapply extends_trans; [exact X1|];
              eapply extends_trans; eassumption
             | intros w' E; discriminate E]].
  destruct (D3 w3 eq_refl) as (Hi3 & Hv3 & Hh3).
  unfold exec. cbn [world_of]. rewrite hdelay_eq. split.
  - eapply extends_trans; [exact X1|].
    eapply extends_trans; [exact X2|].
    eapply extends_trans; [exact X3|].
    eexists. split; [reflexivity|].
    apply Forall_cons; [exact I|].
    apply Forall_forall. intros e He. apply repeat_spec in He. now subst e.
  - intros w' E. assert (Ew : w' = world_of (@Done unit tt w')) by reflexivity.
    rewrite <- E in Ew. cbn [world_of] in Ew. subst w'.
    split; [exact Hi3|]. split; [exact Hv3 | exact Hh3].
Qed.

Lemma main_loop_p2 (fuel rounds : nat) :
  forall (w : world) (hi : Z),
    plants_init w -> valves (P2OUT w) = 0 -> high (P2OUT w) = hi ->
    extends (p2_ok hi) w (snd (main_loop ADC10MEM fuel rounds w)).
Proof.
  induction rounds as [|rounds IH]; intros w hi Hi Hv Hh.
  - cbn [main_loop snd]. apply extends_refl.
  - cbn [main_loop].
    destruct (cycle_p2 fuel w hi Hi Hv Hh) as (X & D).
    destruct (cycle ADC10MEM fuel w) as [[] w1|l w1]; cbn [world_of snd] in *.
    + destruct (D w1 eq_refl) as (Hi1 & Hv1 & Hh1).
      eapply extends_trans; [exact X|]. now apply IH.
    + exact X.
Qed.

(** X6: the shared line is never open without a station valve, and P2.4-P2.7
    are never driven.  In every run of main, from any state of the ports at
    reset and on any soil, every value written to P2OUT has P2.4-P2.7 as they
    were at reset and its four valve bits in one of seven states: all
    closed, one station valve alone, or one station valve with the shared
    line.  So whenever P2.3 is high exactly one station valve is open. *)
Theorem shared_line_needs_a_station_valve
        (fuel : nat) (p1 p2 : Z) (v : Z) :
  In (EvP2OUT v) (trace (snd (main ADC10MEM fuel p1 p2))) ->
  high v = high (uint8 p2) /\
  In (valves v) [0; 1; 2; 4; 9; 10; 12] /\
  (Z.testbit v 3 = true -> station_valves_open v = 1%nat).
Proof.
  intros Hin.
  assert (Hh : high (P2OUT (startup p1 p2)) = high (uint8 p2)).
  { apply (high_clear (uint8 p2) 15). reflexivity. }
  destruct (main_loop_p2 fuel fuel (startup p1 p2) _
              (startup_plants p1 p2) (startup_closed p1 p2) Hh)
    as (tr & Et & Ft).
  assert (Hok : p2_ok (high (uint8 p2)) (EvP2OUT v)).
  { unfold main in Hin. rewrite Et, startup_trace in Hin.
    apply in_app_or in Hin. destruct Hin as [Hin|Hin].
    - destruct Hin as [Hin|[Hin|[]]]; [discriminate Hin|].
      injection Hin as <-. split; [exact Hh|].
      left. symmetry. apply (startup_closed p1 p2).
    - rewrite Forall_forall in Ft. exact (Ft _ Hin). }
  destruct Hok as (H1 & H2). split; [exact H1|]. split; [exact H2|].
  rewrite open_count_valves, (testbit_valves v 3) by lia.
  cbn [In] in H2.
  destruct H2 as [<-|[<-|[<-|[<-|[<-|[<-|[<-|[]]]]]]]];
    vm_compute; intros H; solve [discriminate H | reflexivity].
Qed.

End Interlock.

(** The write of 9 in the first dose on wet soil. *)
Lemma shared_line_needs_a_station_valve_witness :
  In (EvP2OUT 9) (trace (snd (main soil_wet 1 0 0))) /\
  station_valves_open 9 = 1%nat.
Proof.
  assert (Hin : In (EvP2OUT 9) (trace (snd (main soil_wet 1 0 0)))).
  { vm_compute. do 9 right. left. reflexivity. }
  split; [exact Hin|].
  destruct (shared_line_needs_a_station_valve soil_wet 1 0 0 9 Hin)
    as (_ & _ & H).
  apply H. reflexivity.
Defined.

(** ** The sensor during calibration *)

Section Sensor.

Variable ADC10MEM : nat -> Z.

Lemma calibration_frame (fuel : nat) :
  forall (m c : Z) (w : world),
    let w' := world_of (calibration ADC10MEM fuel m c w) in
    P1OUT w' = P1OUT w /\ ADC10CTL1 w' = ADC10CTL1 w /\
    ADC10AE0 w' = ADC10AE0 w /\ mseconds w' = mseconds w /\
    (Z.land (ADC10CTL0 w) ENC = ENC -> Z.land (ADC10CTL0 w') ENC = ENC).
Proof.
  induction fuel as [|fuel IH]; intros m c w w'; subst w'.
  - cbn [calibration].
    destruct ((m <? MOISTURE_MAX) || (c <? MAX_TRAVEL)); cbn [world_of];
      repeat split; auto.
  - cbn [calibration].
    destruct ((m <? MOISTURE_MAX) || (c <? MAX_TRAVEL)); cbn [world_of];
      [|repeat split; auto].
    rewrite calibration_body_eq.
    match goal with
    | |- context [calibration _ fuel ?m1 ?c1 ?w1] =>
        destruct (IH m1 c1 w1) as (A & B & C & D & E)
    end.
    cbn [P1OUT ADC10CTL1 ADC10AE0 mseconds ADC10CTL0] in A, B, C, D, E.
    split; [exact A|]. split; [exact B|]. split; [exact C|].
    split; [exact D|]. intros _. apply E.
    assert (K : Z.land (ENC + ADC10SC) 65535 = ENC + ADC10SC) by reflexivity.
    assert (K2 : Z.land (ENC + ADC10SC) ENC = ENC) by reflexivity.
    bits_by K K2.
Qed.

(** X13: while a station calibrates its sensor stays powered and its channel
    selected.  If the processing of a station is found in the calibration
    loop, then P1OUT, ADC10CTL1 and ADC10AE0 are still what initializeADC
    made of them, with the station's supply, channel and input bits set, ENC
    is set, the station's valve is open, and only the 500 ms of settling have
    passed on the millisecond clock: every sample of the loop is taken from
    the station's own sensor. *)
Theorem calibration_keeps_the_sensor_on
        (fuel : nat) (p : ptr) (w w' : world) :
  plantState ADC10MEM fuel p w = Spin InCalibration w' ->
  let q := deref p w in
  P1OUT w' = uint8 (Z.lor (P1OUT w) (enableADC q)) /\
  ADC10CTL1 w' = uint16 (Z.lor (ADC10CTL1 w) (selectADC q)) /\
  ADC10AE0 w' = uint8 (Z.lor (ADC10AE0 w) (sampleADC q)) /\
  Z.land (P1OUT w') (uint8 (enableADC q)) = uint8 (enableADC q) /\
  Z.land (ADC10CTL0 w') ENC = ENC /\
  Z.land (P2OUT w') (uint8 (activateSolenoid q)) =
    uint8 (activateSolenoid q) /\
  mseconds w' = mseconds w + 500 /\
  deref p w' = q.
Proof.
  intros E q. subst q.
  pose proof (plantState_eq ADC10MEM fuel p w) as Q. cbn zeta in Q.
  rewrite E in Q.
  destruct (ADC10MEM (conversions w) <? MOISTURE_MIN); [|discriminate Q].
  match type of Q with
  | context [preWaterPlant _ fuel p ?w0] =>
      pose proof (preWaterPlant_eq ADC10MEM fuel p w0) as P;
      destruct (preWaterPlant_spec ADC10MEM fuel p w0)
        as (l & w1 & E1 & Hp & _ & Hl);
      rewrite E1 in Q, P
  end.
  assert (El : l = InCalibration) by congruence.
  assert (Ew : w1 = w') by congruence. subst l w1.
  destruct Hl as [(_ & Hv)|(Hl & _)]; [|discriminate Hl].
  cbn [P1OUT P2OUT ADC10CTL0 ADC10CTL1 ADC10AE0 conversions seconds mseconds
       trace plant1 plant2 plant3] in P, Hv.
  fold_deref_in p w P. fold_deref_in p w Hv.
  match type of P with
  | context [calibration _ fuel ?m ?c ?w0] =>
      pose proof (calibration_frame fuel m c w0) as F; cbn zeta in F;
      destruct (calibration ADC10MEM fuel m c w0) as [[m' c'] w2|l w2]
  end; [discriminate P|].
  assert (Ew : w2 = w') by congruence. subst w2.
  cbn [world_of P1OUT ADC10CTL0 ADC10CTL1 ADC10AE0 mseconds] in F.
  destruct F as (A & B & C & D & G).
  split; [exact A|]. split; [exact B|]. split; [exact C|].
  split; [rewrite A; apply uint8_lor_keeps|].
  split.
  { apply G.
    assert (K : Z.land (ENC + ADC10SC) 65535 = ENC + ADC10SC) by reflexivity.
    assert (K2 : Z.land (ENC + ADC10SC) ENC = ENC) by reflexivity.
    bits_by K K2. }
  split.
  { destruct Hv as [-> | ->].
    - apply uint8_lor_keeps.
    - rewrite <- (uint8_idem (activateSolenoid (deref p w))).
      apply uint8_lor_mono, uint8_lor_keeps. }
  split; [exact D|].
  apply (same_plants_deref p) in Hp. exact Hp.
Qed.

End Sensor.

(** Station 1 on soil that stays dry, found in the loop after 20 rounds. *)
Lemma calibration_keeps_the_sensor_on_witness :
  let w := startup 0 0 in
  let w' := world_of (plantState soil_dry 20 ptr_plant1 w) in
  P1OUT w' = 1 /\ ADC10CTL1 w' = INCH_1 + ADC10DIV_7 /\ ADC10AE0 w' = BIT1.
Proof.
  destruct (calibration_keeps_the_sensor_on
              soil_dry 20 ptr_plant1 (startup 0 0)
              (world_of (plantState soil_dry 20 ptr_plant1 (startup 0 0))))
    as (A & B & C & _).
  - vm_compute. reflexivity.
  - split; [exact A|]. split; [exact B | exact C].
Defined.


(** * The round on a dry station *)

Section Round.

Variable ADC10MEM : nat -> Z.

Lemma station_wet_entries (fuel : nat) (p : ptr) (w : world) :
  plants_init w -> valves (P2OUT w) = 0 ->
  MOISTURE_MIN <= ADC10MEM (conversions w) ->
  exists w' : world,
    plantState ADC10MEM fuel p w = Done tt w' /\
    plants_init w' /\ valves (P2OUT w') = 0 /\
    conversions w' = S (conversions w) /\
    filter is_entry (trace w') =
      filter is_entry (trace w) ++ station_entries p.
Proof.
  intros Hi Hv Hw.
  destruct (plantState_wet_closed ADC10MEM fuel p w Hi Hv Hw)
    as (w' & E & Hi' & Hv' & Hc & _ & Ht).
  exists w'. split; [exact E|]. split; [exact Hi'|]. split; [exact Hv'|].
  split; [exact Hc|].
  rewrite Ht, filter_app. reflexivity.
Qed.

Lemma station_dry_entries (fuel : nat) (p : ptr) (w : world) :
  ADC10MEM (conversions w) < MOISTURE_MIN ->
  exists (l : loop) (w' : world),
    plantState ADC10MEM fuel p w = Spin l w' /\
    (l = InCalibration \/ l = InAlarm) /\
    filter is_entry (trace w') =
      filter is_entry (trace w) ++ [EvPlantState p; EvPreWaterPlant p].
Proof.
  intros Hd.
  destruct (plantState_returns_or_calibrates ADC10MEM fuel p w)
    as [(w' & _ & Hw & _)|(l & w' & rest & E & Hl & _ & Et & Fr)]; [lia|].
  exists l, w'. split; [exact E|]. split; [exact Hl|].
  rewrite Et, !filter_app. cbn [filter is_entry sense_events app].
  rewrite (filter_none is_entry rest);
    [now rewrite <- !app_assoc|].
  eapply Forall_impl; [|exact Fr]. apply loop_event_not_entry.
Qed.

(** A round whose three samples are at or above MOISTURE_MIN. *)
Lemma cycle_wet_entries (fuel : nat) (w : world) :
  plants_init w -> valves (P2OUT w) = 0 ->
  (forall j : nat, (j < 3)%nat ->
                   MOISTURE_MIN <= ADC10MEM (conversions w + j)) ->
  exists w' : world,
    cycle ADC10MEM fuel w = Done tt w' /\
    plants_init w' /\ valves (P2OUT w') = 0 /\
    conversions w' = (conversions w + 3)%nat /\
    filter is_entry (trace w') = filter is_entry (trace w) ++ round_entries.
Proof.
  intros Hi Hv Hw.
  assert (H0 : MOISTURE_MIN <= ADC10MEM (conversions w)).
  { specialize (Hw 0%nat). rewrite Nat.add_0_r in Hw. apply Hw. lia. }
  destruct (station_wet_entries fuel ptr_plant1 w Hi Hv H0)
    as (w1 & E1 & I1 & V1 & C1 & T1).
  assert (H1 : MOISTURE_MIN <= ADC10MEM (conversions w1)).
  { rewrite C1. specialize (Hw 1%nat).
    replace (conversions w + 1)%nat with (S (conversions w)) in Hw by lia.
    apply Hw. lia. }
  destruct (station_wet_entries fuel ptr_plant2 w1 I1 V1 H1)
    as (w2 & E2 & I2 & V2 & C2 & T2).
  assert (H2 : MOISTURE_MIN <= ADC10MEM (conversions w2)).
  { rewrite C2, C1. specialize (Hw 2%nat).
    replace (conversions w + 2)%nat with (S (S (conversions w))) in Hw
      by lia.
    apply Hw. lia. }
  destruct (station_wet_entries fuel ptr_plant3 w2 I2 V2 H2)
    as (w3 & E3 & I3 & V3 & C3 & T3).
  exists (hdelay 48 w3).
  split; [unfold cycle, bind; rewrite E1, E2, E3; reflexivity|].
  rewrite hdelay_eq. cbn [P2OUT conversions trace].
  split; [exact I3|]. split; [exact V3|]. split; [lia|].
  rewrite filter_app. cbn [filter is_entry].
  rewrite filter_repeat_none by reflexivity.
  rewrite T3, T2, T1. unfold round_entries. now rewrite <- !app_assoc.
Qed.

(** A round whose station [p] is the first to be sampled below
    MOISTURE_MIN. *)
Lemma cycle_dry_entries (fuel : nat) (p : ptr) (w : world) :
  plants_init w -> valves (P2OUT w) = 0 ->
  (forall j : nat, (j < station_number p)%nat ->
                   MOISTURE_MIN <= ADC10MEM (conversions w + j)) ->
  ADC10MEM (conversions w + station_number p) < MOISTURE_MIN ->
  exists (l : loop) (w' : world),
    cycle ADC10MEM fuel w = Spin l w' /\
    (l = InCalibration \/ l = InAlarm) /\
    filter is_entry (trace w') =
      filter is_entry (trace w) ++ entries_before p ++
      [EvPlantState p; EvPreWaterPlant p].
Proof.
  intros Hi Hv Hw Hd.
  destruct p; cbn [station_number entries_before] in *.
  - rewrite Nat.add_0_r in Hd.
    destruct (station_dry_entries fuel ptr_plant1 w Hd)
      as (l & w' & E & Hl & T).
    exists l, w'.
    split; [unfold cycle, bind; rewrite E; reflexivity|].
    split; [exact Hl | exact T].
  - assert (H0 : MOISTURE_MIN <= ADC10MEM (conversions w)).
    { specialize (Hw 0%nat). rewrite Nat.add_0_r in Hw. apply Hw. lia. }
    destruct (station_wet_entries fuel ptr_plant1 w Hi Hv H0)
      as (w1 & E1 & I1 & V1 & C1 & T1).
    replace (conversions w + 1)%nat with (conversions w1) in Hd by lia.
    destruct (station_dry_entries fuel ptr_plant2 w1 Hd)
      as (l & w' & E & Hl & T).
    exists l, w'.
    split; [unfold cycle, bind; rewrite E1, E; reflexivity|].
    split; [exact Hl|].
    rewrite T, T1. now rewrite <- !app_assoc.
  - assert (H0 : MOISTURE_MIN <= ADC10MEM (conversions w)).
    { specialize (Hw 0%nat). rewrite Nat.add_0_r in Hw. apply Hw. lia. }
    destruct (station_wet_entries fuel ptr_plant1 w Hi Hv H0)
      as (w1 & E1 & I1 & V1 & C1 & T1).
    assert (H1 : MOISTURE_MIN <= ADC10MEM (conversions w1)).
    { rewrite C1. specialize (Hw 1%nat).
      replace (conversions w + 1)%nat with (S (conversions w)) in Hw by lia.
      apply Hw. lia. }
    destruct (station_wet_entries fuel ptr_plant2 w1 I1 V1 H1)
      as (w2 & E2 & I2 & V2 & C2 & T2).
    replace (conversions w + 2)%nat with (conversions w2) in Hd by lia.
    destruct (station_dry_entries fuel ptr_plant3 w2 Hd)
      as (l & w' & E & Hl & T).
    exists l, w'.
    split; [unfold cycle, bind; rewrite E1, E2, E; reflexivity|].
    split; [exact Hl|].
    rewrite T, T2, T1. now rewrite <- !app_assoc.
Qed.

(** [r] rounds complete and the next one stops at station [p]. *)
Lemma main_loop_dry_station (fuel : nat) (p : ptr) :
  forall (r rounds : nat) (w : world),
    (r < rounds)%nat ->
    plants_init w -> valves (P2OUT w) = 0 ->
    (forall j : nat, (j < 3 * r + station_number p)%nat ->
                     MOISTURE_MIN <= ADC10MEM (conversions w + j)) ->
    ADC10MEM (conversions w + (3 * r + station_number p)) < MOISTURE_MIN ->
    exists (l : loop) (w' : world),
      main_loop ADC10MEM fuel rounds w = (l, w') /\
      (l = InCalibration \/ l = InAlarm) /\
      filter is_entry (trace w') =
        filter is_entry (trace w) ++ concat (repeat round_entries r) ++
        entries_before p ++ [EvPlantState p; EvPreWaterPlant p].
Proof.
  induction r as [|r IH]; intros [|rounds] w Hr Hi Hv Hw Hd; try lia.
  - cbn [Nat.mul Nat.add] in Hw, Hd.
    destruct (cycle_dry_entries fuel p w Hi Hv Hw Hd)
      as (l & w' & E & Hl & T).
    exists l, w'. cbn [main_loop]. rewrite E.
    split; [reflexivity|]. split; [exact Hl | exact T].
  - destruct (cycle_wet_entries fuel w Hi Hv) as (w1 & E & I1 & V1 & C1 & T1).
    { intros j Hj. apply Hw. lia. }
    destruct (IH rounds w1) as (l & w' & E' & Hl & T); try assumption.
    + lia.
    + intros j Hj. rewrite C1.
      replace (conversions w + 3 + j)%nat with (conversions w + (3 + j))%nat
        by lia.
      apply Hw. lia.
    + rewrite C1.
      replace (conversions w + 3 + (3 * r + station_number p))%nat
        with (conversions w + (3 * S r + station_number p))%nat by lia.
      exact Hd.
    + exists l, w'. cbn [main_loop]. rewrite E.
      split; [exact E'|]. split; [exact Hl|].
      rewrite T, T1. cbn [repeat concat]. now rewrite <- !app_assoc.
Qed.

(** C8: a station sampled below MOISTURE_MIN ends the schedule.  On a soil
    whose samples are at or above MOISTURE_MIN for [r] whole rounds and for
    the stations before [p] in the next round, and below it at station [p],
    every run of main with more than [r] rounds of budget, from any state of
    the output ports at reset, is found in the calibration loop or in the
    alarm, and the entries of its trace are: [r] times the three stations in
    their order and the sleep of 48 hours, the stations before [p], and then
    plantState and preWaterPlant of [p] and nothing more.  The stations
    after [p] are never processed and no sleep follows, whatever the
    budget. *)
Theorem dry_station_ends_the_schedule
        (fuel r : nat) (p : ptr) (p1 p2 : Z) :
  (r < fuel)%nat ->
  (forall j : nat, (j < 3 * r + station_number p)%nat ->
                   MOISTURE_MIN <= ADC10MEM j) ->
  ADC10MEM (3 * r + station_number p) < MOISTURE_MIN ->
  let run := main ADC10MEM fuel p1 p2 in
  (fst run = InCalibration \/ fst run = InAlarm) /\
  filter is_entry (trace (snd run)) =
    concat (repeat round_entries r) ++ entries_before p ++
    [EvPlantState p; EvPreWaterPlant p].
Proof.
  intros Hr Hw Hd run. subst run. unfold main.
  destruct (main_loop_dry_station fuel p r fuel (startup p1 p2) Hr
              (startup_plants p1 p2) (startup_closed p1 p2))
    as (l & w' & E & Hl & T).
  - intros j Hj. apply Hw. exact Hj.
  - exact Hd.
  - rewrite E. cbn [fst snd]. split; [exact Hl|].
    rewrite T, startup_trace. reflexivity.
Qed.

End Round.

(** The soil that dries out in the second round: one whole round and its
    sleep, station 1 again, then station 2 enters preWaterPlant; station 3
    is not reached a second time and no second sleep begins. *)
Lemma dry_station_ends_the_schedule_witness :
  filter is_entry (trace (snd (main soil_drying 9 0 0))) =
  [EvPlantState ptr_plant1; EvWaterPlant ptr_plant1;
   EvPlantState ptr_plant2; EvWaterPlant ptr_plant2;
   EvPlantState ptr_plant3; EvWaterPlant ptr_plant3;
   EvHdelay 48;
   EvPlantState ptr_plant1; EvWaterPlant ptr_plant1;
   EvPlantState ptr_plant2; EvPreWaterPlant ptr_plant2].
Proof.
  refine (proj2 (dry_station_ends_the_schedule
                   soil_drying 9 1 ptr_plant2 0 0 _ _ _)).
  - lia.
  - intros j Hj. cbn [station_number] in Hj.
    do 4 (destruct j as [|j]; [discriminate|]). lia.
  - reflexivity.
Defined.
